(** * leap.keymanager: the Key Manager (Nicknym agent)

    A shallow embedding of [leap/keymanager/__init__.py] (class [KeyManager])
    and the properties of its key resolution, refresh, publication and
    dispatch operations.

    The methods of [KeyManager] are written in a state-and-exception monad
    over a [World]: the Soledad document store shared by the Key Manager and
    its key wrappers, the state of the remote servers, and the list of calls
    that left the Key Manager (to a wrapper, to Soledad, to the HTTP
    fetcher).  Python exceptions are values of [exn]; [raise] and
    [try ... except KeyNotFound] are the monad's operations. *)

From Stdlib Require Import String Ascii List Bool Arith Lia.
From stdpp Require Import base option list gmap strings.

Import ListNotations.
Local Open Scope string_scope.
Set Warnings "-register-all".

(** ** Python values and exceptions *)

(** The exceptions that can travel through the Key Manager.  [AssertionError]
    is what [leap_assert] raises, [KeyNotFound] comes from the key wrappers,
    [KeyError], [IndexError], [TypeError] and [ValueError] from Python's
    containers and from [Response.json], [HTTPError] from
    [Response.raise_for_status], and [RequestException] stands for whatever
    the fetcher itself raises (connection and certificate failures, with
    the library's message). *)
Inductive exn : Type :=
  | AssertionError (msg : string)
  | KeyNotFound (msg : string)
  | KeyError (key : string)
  | IndexError (msg : string)
  | TypeError (msg : string)
  | ValueError (msg : string)
  | HTTPError (msg : string)
  | RequestException (msg : string)
  | SchemeError (msg : string).

Inductive Result (A : Type) : Type :=
  | Ok (a : A)
  | Err (e : exn).
Arguments Ok {A} a.
Arguments Err {A} e.

(** A decoded JSON document, as [Response.json()] returns it. *)
Inductive jvalue : Type :=
  | JNull
  | JBool (b : bool)
  | JNum (n : Z)
  | JStr (s : string)
  | JArr (l : list jvalue)
  | JObj (l : list (string * jvalue)).

(** [s1 in s2] on Python strings: [s1] occurs in [s2]. *)
Definition str_contains (s1 s2 : string) : bool :=
  match String.index 0 s1 s2 with
  | Some _ => true
  | None => false
  end.

Definition is_JStr (key : string) (j : jvalue) : bool :=
  match j with
  | JStr s => String.eqb key s
  | _ => false
  end.

(** [key in j], for a string [key]: membership among the keys of a dict,
    among the elements of a list, as a substring of a string; a [TypeError]
    on the values that are not iterable. *)
Definition py_in (key : string) (j : jvalue) : Result bool :=
  match j with
  | JObj l => Ok (existsb (fun kv => String.eqb key (fst kv)) l)
  | JArr l => Ok (existsb (is_JStr key) l)
  | JStr s => Ok (str_contains key s)
  | JNull | JBool _ | JNum _ =>
      Err (TypeError "argument is not iterable")
  end.

Fixpoint assoc_get (key : string) (l : list (string * jvalue)) : option jvalue :=
  match l with
  | [] => None
  | (k, v) :: l' => if String.eqb key k then Some v else assoc_get key l'
  end.

(** [j[key]], for a string [key]. *)
Definition py_getitem (j : jvalue) (key : string) : Result jvalue :=
  match j with
  | JObj l =>
      match assoc_get key l with
      | Some v => Ok v
      | None => Err (KeyError key)
      end
  | JArr _ => Err (TypeError "list indices must be integers")
  | JStr _ => Err (TypeError "string indices must be integers")
  | JNull | JBool _ | JNum _ =>
      Err (TypeError "object has no attribute '__getitem__'")
  end.

(** ** Keys and key classes *)

(** A key class (a subclass of [EncryptionKey]), identified by its qualified
    name; [str_class] is Python's [str(klass)]. *)
Inductive KeyClass : Type :=
  | Class (qualname : string).

Definition qualname (k : KeyClass) : string :=
  match k with Class n => n end.

Definition str_class (k : KeyClass) : string :=
  "<class '" ++ qualname k ++ "'>".

Definition OpenPGPKey : KeyClass := Class "leap.keymanager.openpgp.OpenPGPKey".

#[global] Instance KeyClass_eq_dec : EqDecision KeyClass.
Proof. solve_decision. Defined.

#[global] Instance KeyClass_countable : Countable KeyClass.
Proof.
  refine (inj_countable' qualname Class _).
  intros [n]; reflexivity.
Defined.

(** An instance of a subclass of [EncryptionKey]: [klass] is its
    [__class__]. *)
Record EncryptionKey : Type := {
  klass : KeyClass;
  address : string;
  key_data : string;
  private : bool
}.

(** ** Soledad *)

(** The content of a Soledad document that holds a key. *)
Record Content : Type := {
  c_tags : list string;
  c_type : string;
  c_address : string;
  c_key_data : string;
  c_private : bool
}.

Definition Soledad : Type := list Content.

(** Modelled from the spec: the tag and the index name are declared in
    [leap.keymanager.keys], which is not among the sources; the local
    store is "tagged by (is_private, key_type)" and queried with
    [query_by_tag(private_flag)]. *)
Definition KEYMANAGER_KEY_TAG : string := "keymanager-key".
Definition TAGS_PRIVATE_INDEX : string := "by-tags-private".

(** Modelled from the spec: [Soledad.get_from_index] on the
    tags-and-private index is the local store's
    [query_by_tag(private_flag) -> sequence of generic records
    {type, address, content}]: the documents that carry the tag and whose
    private flag is the one asked for. *)
Definition get_from_index (sol : Soledad) (index tag flag : string)
  : list Content :=
  if String.eqb index TAGS_PRIVATE_INDEX then
    List.filter (fun c => bool_decide (tag ∈ c_tags c)
                     && String.eqb flag (if c_private c then "1" else "0")) sol
  else [].

(** Modelled from the spec: [build_key_from_dict] of [leap.keymanager.keys]
    (not among the sources) rehydrates "a generically-stored record
    (address + opaque blob + string type tag) into a concrete EncryptionKey
    instance" of the class it is given. *)
Definition build_key_from_dict (kClass : KeyClass) (addr : string)
    (kdict : Content) : EncryptionKey :=
  {| klass := kClass; address := addr;
     key_data := c_key_data kdict; private := c_private kdict |}.

(** ** The collaborators *)

(** Modelled from the spec: [OpenPGPScheme] of [leap.keymanager.openpgp]
    is not among the sources.  A key wrapper is taken as an object with the
    methods the Key Manager calls on it.  Following the spec's local store
    contract ([get(address, private) -> Key | NotFound]), [get_key] is a
    query on the Soledad store; the other methods may write to it and
    return the store they leave. *)
Module Scheme.
Record t : Type := {
  get_key : Soledad -> string -> bool -> Result EncryptionKey;
  put_ascii_key : Soledad -> jvalue -> Result unit * Soledad;
  gen_key : Soledad -> string -> Result EncryptionKey * Soledad;
  encrypt : Soledad -> string -> EncryptionKey -> option string ->
            option EncryptionKey -> Result string * Soledad;
  decrypt : Soledad -> string -> EncryptionKey -> option string ->
            option EncryptionKey -> Result string * Soledad;
  sign : Soledad -> string -> EncryptionKey -> Result string * Soledad;
  verify : Soledad -> string -> EncryptionKey -> Result bool * Soledad
}.
End Scheme.

(** A [requests.Response], as far as the Key Manager looks at it: what
    [raise_for_status()] raises if anything, the headers (keys in lower
    case), and what [json()] returns or raises. *)
Record Response : Type := {
  raise_for_status : option exn;
  headers : gmap string string;
  json : Result jvalue
}.

(** The [requests] module held in [self._fetcher]: [get] and [put] answer
    from the state of the remote servers and may change it.  [verify] is
    the CA certificate path handed over, [cookies] the session id. *)
Record Fetcher (Remote : Type) : Type := {
  fetcher_get : Remote -> string -> list (string * string) ->
                option string -> Result Response * Remote;
  fetcher_put : Remote -> string -> list (string * string) ->
                option string -> option string -> Result Response * Remote
}.
Arguments fetcher_get {Remote} _.
Arguments fetcher_put {Remote} _.

(** The calls that leave the Key Manager. *)
Inductive SchemeCall : Type :=
  | Call_get_key (addr : string) (priv : bool)
  | Call_put_ascii_key (data : jvalue)
  | Call_gen_key (addr : string)
  | Call_encrypt (data : string) (pubkey : EncryptionKey)
                 (passphrase : option string) (sign : option EncryptionKey)
  | Call_decrypt (data : string) (privkey : EncryptionKey)
                 (passphrase : option string) (verify : option EncryptionKey)
  | Call_sign (data : string) (privkey : EncryptionKey)
  | Call_verify (data : string) (pubkey : EncryptionKey).

Inductive Event : Type :=
  | EvScheme (k : KeyClass) (c : SchemeCall)
  | EvIndex (index tag flag : string)
  | EvGet (uri : string) (data : list (string * string))
          (verify : option string)
  | EvPut (uri : string) (data : list (string * string))
          (verify : option string) (session : option string).

(** The requests sent over the network. *)
Definition is_network (e : Event) : bool :=
  match e with
  | EvGet _ _ _ | EvPut _ _ _ _ => true
  | _ => false
  end.

Definition is_put (e : Event) : bool :=
  match e with
  | EvPut _ _ _ _ => true
  | _ => false
  end.

(** The calls that reach a key wrapper. *)
Definition is_scheme (e : Event) : bool :=
  match e with
  | EvScheme _ _ => true
  | _ => false
  end.

(** The GET requests that ask the nickserver for [addr]. *)
Definition is_fetch_of (addr : string) (e : Event) : bool :=
  match e with
  | EvGet _ data _ =>
      bool_decide (data = [("address", addr)])
  | _ => false
  end.

Definition count (p : Event -> bool) (t : list Event) : nat :=
  length (List.filter p t).

Definition network_calls (t : list Event) : nat := count is_network t.

(** The lookups made in a key wrapper. *)
Definition is_lookup (e : Event) : bool :=
  match e with
  | EvScheme _ (Call_get_key _ _) => true
  | _ => false
  end.

(** The imports handed to a key wrapper. *)
Definition is_import (e : Event) : bool :=
  match e with
  | EvScheme _ (Call_put_ascii_key _) => true
  | _ => false
  end.

(** ** The monad *)

Section KeyManager.

Context {Remote : Type}.

(** What the Key Manager works on: the Soledad store it shares with its
    key wrappers, the remote servers, and the calls made so far (oldest
    first). *)
Record World : Type := {
  soledad : Soledad;
  remote : Remote;
  trace : list Event
}.

Definition M (A : Type) : Type := World -> Result A * World.

Definition ret {A : Type} (a : A) : M A := fun w => (Ok a, w).

Definition raise {A : Type} (e : exn) : M A := fun w => (Err e, w).

Definition bind {A B : Type} (m : M A) (k : A -> M B) : M B :=
  fun w =>
    match m w with
    | (Ok a, w') => k a w'
    | (Err e, w') => (Err e, w')
    end.

Notation "x <- m ;; k" := (bind m (fun x => k))
  (at level 100, m at next level, right associativity).
Notation "m ;; k" := (bind m (fun _ => k))
  (at level 100, right associativity).

(** [try: body except KeyNotFound: handler]; the handler gets the exception
    caught so that a bare [raise] can raise it again. *)
Definition try_except_KeyNotFound {A : Type} (body : M A)
    (handler : exn -> M A) : M A :=
  fun w =>
    match body w with
    | (Err (KeyNotFound msg), w') => handler (KeyNotFound msg) w'
    | r => r
    end.

Definition lift {A : Type} (r : Result A) : M A := fun w => (r, w).

Definition log (e : Event) (w : World) : World :=
  {| soledad := soledad w; remote := remote w; trace := trace w ++ [e] |}.

(** A [for] loop whose body may raise. *)
Fixpoint for_each {A : Type} (l : list A) (body : A -> M unit) : M unit :=
  match l with
  | [] => ret tt
  | x :: l' => body x ;; for_each l' body
  end.

(** Python 2's [map]: the list of the results, built at once. *)
Fixpoint py_map {A B : Type} (f : A -> M B) (l : list A) : M (list B) :=
  match l with
  | [] => ret []
  | x :: l' => y <- f x ;; ys <- py_map f l' ;; ret (y :: ys)
  end.

(** [leap_assert] of [leap.common.check]: logs and raises [AssertionError]
    with the message when the condition is false. *)
Definition leap_assert (condition : bool) (message : string) : M unit :=
  if condition then ret tt else raise (AssertionError message).

(** [leap_assert_type(key, EncryptionKey)]: every [EncryptionKey] here is
    an instance of a subclass of [EncryptionKey]. *)
Definition leap_assert_type (key : EncryptionKey) : M unit := ret tt.

Definition is_not_None {A : Type} (o : option A) : bool :=
  match o with
  | Some _ => true
  | None => false
  end.

(** ["%s" % o] *)
Definition py_str (o : option string) : string :=
  match o with
  | Some s => s
  | None => "None"
  end.

(** [set(l)]: the distinct elements.  The order in which Python iterates
    over a set is not specified; here each element stays where it occurs
    last. *)
Definition py_set (l : list string) : list string := remove_dups l.

(** *** Calls to the collaborators *)

(** A method of a key wrapper that may write to the store. *)
Definition scheme_call {A : Type} (k : KeyClass) (c : SchemeCall)
    (method : Soledad -> Result A * Soledad) : M A :=
  fun w =>
    let (r, sol') := method (soledad w) in
    (r, {| soledad := sol'; remote := remote w;
           trace := trace w ++ [EvScheme k c] |}).

(** A method of a key wrapper that only reads the store. *)
Definition scheme_query {A : Type} (k : KeyClass) (c : SchemeCall)
    (method : Soledad -> Result A) : M A :=
  fun w => (method (soledad w), log (EvScheme k c) w).

Definition soledad_get_from_index (index tag flag : string)
  : M (list Content) :=
  fun w => (Ok (get_from_index (soledad w) index tag flag),
            log (EvIndex index tag flag) w).

(** ** The Key Manager *)

Record KeyManager : Type := {
  _address : string;
  _nickserver_uri : string;
  _session_id : option string;
  _ca_cert_path : option string;
  _api_uri : option string;
  _api_version : option string;
  _uid : option string;
  _wrapper_map : gmap KeyClass Scheme.t;
  _fetcher : Fetcher Remote
}.

Definition OPENPGP_KEY : string := "openpgp".
Definition PUBKEY_KEY : string := "user[public_key]".

(** [KeyManager.__init__]: [scheme] is the [OpenPGPScheme(soledad,
    gpgbinary=gpgbinary)] it builds and [fetcher] the [requests] module;
    the Soledad instance is the one of the [World].  The session object
    it also creates is not used by any method. *)
Definition __init__ (address nickserver_uri : string)
    (session_id ca_cert_path api_uri api_version uid : option string)
    (scheme : Scheme.t) (fetcher : Fetcher Remote) : KeyManager :=
  {| _address := address;
     _nickserver_uri := nickserver_uri;
     _session_id := session_id;
     _ca_cert_path := ca_cert_path;
     _api_uri := api_uri;
     _api_version := api_version;
     _uid := uid;
     _wrapper_map := {[ OpenPGPKey := scheme ]};
     _fetcher := fetcher |}.

(** [self._wrapper_map[k]] *)
Definition wrapper_map_getitem (self : KeyManager) (k : KeyClass)
  : M Scheme.t :=
  match _wrapper_map self !! k with
  | Some scheme => ret scheme
  | None => raise (KeyError (str_class k))
  end.

(** [self._fetcher.get(uri, data=data, verify=verify)] *)
Definition requests_get (self : KeyManager) (uri : string)
    (data : list (string * string)) (verify : option string) : M Response :=
  fun w =>
    let (r, remote') := fetcher_get (_fetcher self) (remote w) uri data verify in
    (r, {| soledad := soledad w; remote := remote';
           trace := trace w ++ [EvGet uri data verify] |}).

(** [self._fetcher.put(uri, data=data, verify=verify,
    cookies={'_session_id': session})] *)
Definition requests_put (self : KeyManager) (uri : string)
    (data : list (string * string)) (verify session : option string)
  : M Response :=
  fun w =>
    let (r, remote') :=
      fetcher_put (_fetcher self) (remote w) uri data verify session in
    (r, {| soledad := soledad w; remote := remote';
           trace := trace w ++ [EvPut uri data verify session] |}).

(** [res.raise_for_status()] *)
Definition call_raise_for_status (res : Response) : M unit :=
  match raise_for_status res with
  | Some e => raise e
  | None => ret tt
  end.

(** [res.headers[name]] *)
Definition headers_getitem (res : Response) (name : string) : M string :=
  match headers res !! name with
  | Some v => ret v
  | None => raise (KeyError name)
  end.

(** *** Utilities *)

(** [_key_class_from_type]: the registered class whose [str] is [ktype];
    [pop()] on an empty list raises [IndexError]. *)
Definition _key_class_from_type (self : KeyManager) (ktype : string)
  : M KeyClass :=
  match last (List.filter (fun klass => String.eqb (str_class klass) ktype)
                          (map_to_list (_wrapper_map self)).*1) with
  | Some klass => ret klass
  | None => raise (IndexError "pop from empty list")
  end.

Definition _get (self : KeyManager) (uri : string)
    (data : list (string * string)) : M Response :=
  leap_assert (is_not_None (_ca_cert_path self))
    "We need the CA certificate path!" ;;
  res <- requests_get self uri data (_ca_cert_path self) ;;
  (* assert that the response is valid *)
  call_raise_for_status res ;;
  content_type <- headers_getitem res "content-type" ;;
  leap_assert (String.prefix "application/json" content_type)
    "Content-type is not JSON." ;;
  ret res.

Definition _put (self : KeyManager) (uri : string)
    (data : list (string * string)) : M Response :=
  leap_assert (is_not_None (_ca_cert_path self))
    "We need the CA certificate path!" ;;
  leap_assert (is_not_None (_session_id self))
    "We need a session_id to interact with webapp!" ;;
  res <- requests_put self uri data (_ca_cert_path self) (_session_id self) ;;
  (* assert that the response is valid *)
  call_raise_for_status res ;;
  ret res.

Definition _fetch_keys_from_server (self : KeyManager) (address : string)
  : M unit :=
  (* request keys from the nickserver *)
  res <- _get self (_nickserver_uri self) [("address", address)] ;;
  server_keys <- lift (json res) ;;
  (* insert keys in local database *)
  found <- lift (py_in OPENPGP_KEY server_keys) ;;
  if found : bool then
    scheme <- wrapper_map_getitem self OpenPGPKey ;;
    key <- lift (py_getitem server_keys "openpgp") ;;
    scheme_call OpenPGPKey (Call_put_ascii_key key)
      (fun sol => Scheme.put_ascii_key scheme sol key)
  else ret tt.

(** *** Key management *)

Definition get_key (self : KeyManager) (address : string) (ktype : KeyClass)
    (private fetch_remote : bool) : M EncryptionKey :=
  leap_assert (bool_decide (is_Some (_wrapper_map self !! ktype)))
    ("Unkown key type: " ++ str_class ktype ++ ".") ;;
  try_except_KeyNotFound
    ((* return key if it exists in local database *)
     scheme <- wrapper_map_getitem self ktype ;;
     scheme_query ktype (Call_get_key address private)
       (fun sol => Scheme.get_key scheme sol address private))
    (fun e =>
       (* we will only try to fetch a key from nickserver if fetch_remote
          is True and the key is not private. *)
       if negb fetch_remote || private then raise e
       else
         _fetch_keys_from_server self address ;;
         scheme <- wrapper_map_getitem self ktype ;;
         scheme_query ktype (Call_get_key address false)
           (fun sol => Scheme.get_key scheme sol address false)).

(** ["%s/%s/users/%s.json" % (api_uri, api_version, uid)] *)
Definition pubkey_uri (api_uri api_version uid : option string) : string :=
  py_str api_uri ++ "/" ++ py_str api_version ++ "/users/" ++ py_str uid
  ++ ".json".

Definition send_key (self : KeyManager) (ktype : KeyClass) : M unit :=
  leap_assert (bool_decide (ktype = OpenPGPKey))
    "For now we only know how to send OpenPGP public keys." ;;
  (* prepare the public key bound to address *)
  pubkey <- get_key self (_address self) ktype false false ;;
  let data := [(PUBKEY_KEY, key_data pubkey)] in
  let uri := pubkey_uri (_api_uri self) (_api_version self) (_uid self) in
  _put self uri data ;;
  ret tt.

Definition get_all_keys_in_local_db (self : KeyManager) (private : bool)
  : M (list EncryptionKey) :=
  docs <- soledad_get_from_index TAGS_PRIVATE_INDEX KEYMANAGER_KEY_TAG
            (if private then "1" else "0") ;;
  py_map (fun doc =>
            klass <- _key_class_from_type self (c_type doc) ;;
            ret (build_key_from_dict klass (c_address doc) doc))
         docs.

Definition refresh_keys (self : KeyManager) : M unit :=
  keys <- get_all_keys_in_local_db self false ;;
  let addresses := py_set (map address keys) in
  for_each addresses (fun address =>
    (* do not attempt to refresh our own key *)
    if String.eqb address (_address self) then ret tt
    else _fetch_keys_from_server self address).

Definition gen_key (self : KeyManager) (ktype : KeyClass) : M EncryptionKey :=
  scheme <- wrapper_map_getitem self ktype ;;
  scheme_call ktype (Call_gen_key (_address self))
    (fun sol => Scheme.gen_key scheme sol (_address self)).

(** *** Setters *)

Definition _set_session_id (self : KeyManager) (session_id : option string)
  : KeyManager :=
  {| _address := _address self;
     _nickserver_uri := _nickserver_uri self;
     _session_id := session_id;
     _ca_cert_path := _ca_cert_path self;
     _api_uri := _api_uri self;
     _api_version := _api_version self;
     _uid := _uid self;
     _wrapper_map := _wrapper_map self;
     _fetcher := _fetcher self |}.

Definition _set_ca_cert_path (self : KeyManager) (ca_cert_path : option string)
  : KeyManager :=
  {| _address := _address self;
     _nickserver_uri := _nickserver_uri self;
     _session_id := _session_id self;
     _ca_cert_path := ca_cert_path;
     _api_uri := _api_uri self;
     _api_version := _api_version self;
     _uid := _uid self;
     _wrapper_map := _wrapper_map self;
     _fetcher := _fetcher self |}.

Definition _set_api_uri (self : KeyManager) (api_uri : option string)
  : KeyManager :=
  {| _address := _address self;
     _nickserver_uri := _nickserver_uri self;
     _session_id := _session_id self;
     _ca_cert_path := _ca_cert_path self;
     _api_uri := api_uri;
     _api_version := _api_version self;
     _uid := _uid self;
     _wrapper_map := _wrapper_map self;
     _fetcher := _fetcher self |}.

Definition _set_api_version (self : KeyManager) (api_version : option string)
  : KeyManager :=
  {| _address := _address self;
     _nickserver_uri := _nickserver_uri self;
     _session_id := _session_id self;
     _ca_cert_path := _ca_cert_path self;
     _api_uri := _api_uri self;
     _api_version := api_version;
     _uid := _uid self;
     _wrapper_map := _wrapper_map self;
     _fetcher := _fetcher self |}.

Definition _set_uid (self : KeyManager) (uid : option string) : KeyManager :=
  {| _address := _address self;
     _nickserver_uri := _nickserver_uri self;
     _session_id := _session_id self;
     _ca_cert_path := _ca_cert_path self;
     _api_uri := _api_uri self;
     _api_version := _api_version self;
     _uid := uid;
     _wrapper_map := _wrapper_map self;
     _fetcher := _fetcher self |}.

(** *** Getters *)

Definition _get_session_id (self : KeyManager) : option string :=
  _session_id self.

Definition _get_ca_cert_path (self : KeyManager) : option string :=
  _ca_cert_path self.

Definition _get_api_uri (self : KeyManager) : option string := _api_uri self.

Definition _get_api_version (self : KeyManager) : option string :=
  _api_version self.

Definition _get_uid (self : KeyManager) : option string := _uid self.

(** *** encrypt/decrypt and sign/verify API *)

Definition encrypt (self : KeyManager) (data : string)
    (pubkey : EncryptionKey) (passphrase : option string)
    (sign : option EncryptionKey) : M string :=
  leap_assert_type pubkey ;;
  leap_assert (bool_decide (is_Some (_wrapper_map self !! klass pubkey)))
    "Unknown key type." ;;
  leap_assert (negb (private pubkey)) "Key is not public." ;;
  scheme <- wrapper_map_getitem self (klass pubkey) ;;
  scheme_call (klass pubkey) (Call_encrypt data pubkey passphrase sign)
    (fun sol => Scheme.encrypt scheme sol data pubkey passphrase sign).

Definition decrypt (self : KeyManager) (data : string)
    (privkey : EncryptionKey) (passphrase : option string)
    (verify : option EncryptionKey) : M string :=
  leap_assert_type privkey ;;
  leap_assert (bool_decide (is_Some (_wrapper_map self !! klass privkey)))
    "Unknown key type." ;;
  leap_assert (private privkey) "Key is not private." ;;
  scheme <- wrapper_map_getitem self (klass privkey) ;;
  scheme_call (klass privkey) (Call_decrypt data privkey passphrase verify)
    (fun sol => Scheme.decrypt scheme sol data privkey passphrase verify).

Definition sign (self : KeyManager) (data : string)
    (privkey : EncryptionKey) : M string :=
  leap_assert_type privkey ;;
  leap_assert (bool_decide (is_Some (_wrapper_map self !! klass privkey)))
    "Unknown key type." ;;
  leap_assert (private privkey) "Key is not private." ;;
  scheme <- wrapper_map_getitem self (klass privkey) ;;
  scheme_call (klass privkey) (Call_sign data privkey)
    (fun sol => Scheme.sign scheme sol data privkey).

Definition verify (self : KeyManager) (data : string)
    (pubkey : EncryptionKey) : M bool :=
  leap_assert_type pubkey ;;
  leap_assert (bool_decide (is_Some (_wrapper_map self !! klass pubkey)))
    "Unknown key type." ;;
  leap_assert (negb (private pubkey)) "Key is not public." ;;
  scheme <- wrapper_map_getitem self (klass pubkey) ;;
  scheme_call (klass pubkey) (Call_verify data pubkey)
    (fun sol => Scheme.verify scheme sol data pubkey).

(** *** Answers of the nickserver *)

(** An answer that passes the checks of [_get]: [raise_for_status] raises
    nothing and the content type begins with [application/json]. *)
Definition valid_response (res : Response) : Prop :=
  raise_for_status res = None
  /\ exists content_type,
       headers res !! "content-type" = Some content_type
       /\ String.prefix "application/json" content_type = true.

(** The world once the GET for [address] has been sent. *)
Definition sent (self : KeyManager) (address : string) (w : World)
    (remote' : Remote) : World :=
  {| soledad := soledad w; remote := remote';
     trace := trace w ++ [EvGet (_nickserver_uri self) [("address", address)]
                                (_ca_cert_path self)] |}.

(** *** What a remote fetch can do

    The ways [_fetch_keys_from_server self address] can leave a world [w]:
    it stops at the CA certificate check; or it sends its one GET request
    and then stops or returns without touching the store; or it sends the
    request and hands the [openpgp] entry of the answer to the OpenPGP
    wrapper. *)
Inductive fetch_outcome (self : KeyManager) (address : string) (w : World)
  : Result unit -> World -> Prop :=
  | fetch_no_ca :
      _ca_cert_path self = None ->
      fetch_outcome self address w
        (Err (AssertionError "We need the CA certificate path!")) w
  | fetch_no_import (r : Result unit) (remote' : Remote) :
      fetch_outcome self address w r
        {| soledad := soledad w; remote := remote';
           trace := trace w ++ [EvGet (_nickserver_uri self)
                                      [("address", address)]
                                      (_ca_cert_path self)] |}
  | fetch_import (scheme : Scheme.t) (key : jvalue) (r : Result unit)
      (sol' : Soledad) (remote' : Remote) :
      _wrapper_map self !! OpenPGPKey = Some scheme ->
      Scheme.put_ascii_key scheme (soledad w) key = (r, sol') ->
      fetch_outcome self address w r
        {| soledad := sol'; remote := remote';
           trace := trace w ++ [EvGet (_nickserver_uri self)
                                      [("address", address)]
                                      (_ca_cert_path self);
                                EvScheme OpenPGPKey (Call_put_ascii_key key)] |}.

End KeyManager.

Notation "x <- m ;; k" := (bind m (fun x => k))
  (at level 100, m at next level, right associativity).
Notation "m ;; k" := (bind m (fun _ => k))
  (at level 100, right associativity).

(** ** A small installation

    A Key Manager for [alice@leap.se] with a toy OpenPGP wrapper and a
    nickserver given as a table, on which the operations can be run. *)
Module Demo.

(** The part of [s] before the first space. *)
Fixpoint first_word (s : string) : string :=
  match s with
  | EmptyString => EmptyString
  | String c s' => if Ascii.eqb c " " then EmptyString
                   else String c (first_word s')
  end.

Definition is_key_of (addr : string) (priv : bool) (c : Content) : bool :=
  bool_decide (KEYMANAGER_KEY_TAG ∈ c_tags c)
  && String.eqb (c_type c) (str_class OpenPGPKey)
  && String.eqb (c_address c) addr
  && Bool.eqb (c_private c) priv.

Definition pub_doc (addr data : string) : Content :=
  {| c_tags := [KEYMANAGER_KEY_TAG]; c_type := str_class OpenPGPKey;
     c_address := addr; c_key_data := data; c_private := false |}.

Definition priv_doc (addr data : string) : Content :=
  {| c_tags := [KEYMANAGER_KEY_TAG]; c_type := str_class OpenPGPKey;
     c_address := addr; c_key_data := data; c_private := true |}.

(** Modelled from the spec: [OpenPGPScheme] is not among the sources.  The
    local store contract is [get(address, private) -> Key | NotFound] and
    [put(key)]; importing key material makes the "local store gain or
    update one public key".  The OpenPGP engine is replaced by a toy: the
    address a key is bound to is the first word of its material, and the
    cryptographic operations only wrap their input. *)
Definition OpenPGPScheme : Scheme.t :=
  {| Scheme.get_key := fun sol addr priv =>
       match List.filter (is_key_of addr priv) sol with
       | c :: _ => Ok (build_key_from_dict OpenPGPKey addr c)
       | [] => Err (KeyNotFound addr)
       end;
     Scheme.put_ascii_key := fun sol j =>
       match j with
       | JStr data =>
           let addr := first_word data in
           (Ok tt, (List.filter (fun c => negb (is_key_of addr false c)) sol
                    ++ [pub_doc addr data])%list)
       | _ => (Err (AssertionError "key_data is not a str"), sol)
       end;
     Scheme.gen_key := fun sol addr =>
       (Ok (build_key_from_dict OpenPGPKey addr (priv_doc addr (addr ++ " generated"))),
        (sol ++ [pub_doc addr (addr ++ " generated");
                 priv_doc addr (addr ++ " generated")])%list);
     Scheme.encrypt := fun sol data pubkey _ _ =>
       (Ok ("encrypted:" ++ data), sol);
     Scheme.decrypt := fun sol data privkey _ _ =>
       (Ok ("decrypted:" ++ data), sol);
     Scheme.sign := fun sol data privkey => (Ok ("signed:" ++ data), sol);
     Scheme.verify := fun sol data pubkey => (Ok true, sol) |}.

(** The remote servers: what the nickserver answers for each address. *)
Definition Remote : Type := list (string * Response).

Definition ok_response (body : jvalue) : Response :=
  {| raise_for_status := None;
     headers := {[ "content-type" := "application/json; charset=utf-8" ]};
     json := Ok body |}.

Definition not_found_response : Response :=
  {| raise_for_status := Some (HTTPError "404 Client Error: Not Found");
     headers := {[ "content-type" := "application/json" ]};
     json := Ok (JObj []) |}.

Definition html_response : Response :=
  {| raise_for_status := None;
     headers := {[ "content-type" := "text/html" ]};
     json := Err (ValueError "No JSON object could be decoded") |}.

Fixpoint answer (r : Remote) (addr : string) : Result Response :=
  match r with
  | [] => Err (RequestException "certificate verify failed")
  | (a, res) :: r' => if String.eqb a addr then Ok res else answer r' addr
  end.

Definition fetcher : Fetcher Remote :=
  {| fetcher_get := fun r uri data verify =>
       match data with
       | [(_, addr)] => (answer r addr, r)
       | _ => (Err (RequestException "bad request"), r)
       end;
     fetcher_put := fun r uri data verify session =>
       (Ok (ok_response (JObj [])), r) |}.

Definition alice : string := "alice@leap.se".
Definition bob : string := "bob@leap.se".
Definition carol : string := "carol@leap.se".
Definition mallory : string := "mallory@leap.se".

Definition bob_entries : list (string * jvalue) :=
  [("address", JStr bob); ("openpgp", JStr "bob@leap.se PUBLIC KEY")].

Definition carol_entries : list (string * jvalue) :=
  [("address", JStr carol)].

(** The nickserver answers for Mallory with Bob's key. *)
Definition mallory_entries : list (string * jvalue) :=
  [("address", JStr mallory); ("openpgp", JStr "bob@leap.se PUBLIC KEY")].

Definition nickserver : Remote :=
  [ (bob, ok_response (JObj bob_entries));
    (carol, ok_response (JObj carol_entries));
    (mallory, ok_response (JObj mallory_entries));
    ("dave@leap.se", not_found_response);
    ("erin@leap.se", html_response) ].

(** Alice's Key Manager, fully configured. *)
Definition km : @KeyManager Remote :=
  __init__ alice "https://nicknym.leap.se:6425" (Some "session")
    (Some "/etc/ca.crt") (Some "https://api.leap.se") (Some "1")
    (Some "uid1") OpenPGPScheme fetcher.

(** The same before login: no session id. *)
Definition km_no_session : @KeyManager Remote := _set_session_id km None.

(** The same as constructed with the defaults: no CA certificate path. *)
Definition km_no_ca : @KeyManager Remote := _set_ca_cert_path km None.

Definition world (sol : Soledad) : @World Remote :=
  {| soledad := sol; remote := nickserver; trace := [] |}.

(** A store that holds Alice's own key pair. *)
Definition own_keys : Soledad :=
  [pub_doc alice "alice@leap.se PUBLIC KEY";
   priv_doc alice "alice@leap.se PRIVATE KEY"].

(** A store that also holds two public keys bound to Bob's address and one
    bound to Carol's. *)
Definition with_friends : Soledad :=
  (own_keys ++ [pub_doc bob "bob@leap.se OLD KEY";
                pub_doc carol "carol@leap.se PUBLIC KEY";
                pub_doc bob "bob@leap.se OTHER KEY"])%list.

(** A key of a class for which no wrapper is registered. *)
Definition X509Key : KeyClass := Class "leap.keymanager.x509.X509Key".

Definition alice_pubkey : EncryptionKey :=
  {| klass := OpenPGPKey; address := alice;
     key_data := "alice@leap.se PUBLIC KEY"; private := false |}.

Definition alice_privkey : EncryptionKey :=
  {| klass := OpenPGPKey; address := alice;
     key_data := "alice@leap.se PRIVATE KEY"; private := true |}.

(** A provider whose API refuses the key. *)
Definition refusing_fetcher : Fetcher Remote :=
  {| fetcher_get := fetcher_get fetcher;
     fetcher_put := fun r uri data verify session =>
       (Ok {| raise_for_status :=
                Some (HTTPError "422 Client Error: Unprocessable Entity");
              headers := {[ "content-type" := "application/json" ]};
              json := Ok (JObj []) |}, r) |}.

Definition km_refused : @KeyManager Remote :=
  __init__ alice "https://nicknym.leap.se:6425" (Some "session")
    (Some "/etc/ca.crt") (Some "https://api.leap.se") (Some "1")
    (Some "uid1") OpenPGPScheme refusing_fetcher.

(** A wrapper whose store cannot be read. *)
Definition LockedScheme : Scheme.t :=
  {| Scheme.get_key := fun sol addr priv =>
       Err (SchemeError "database is locked");
     Scheme.put_ascii_key := Scheme.put_ascii_key OpenPGPScheme;
     Scheme.gen_key := Scheme.gen_key OpenPGPScheme;
     Scheme.encrypt := Scheme.encrypt OpenPGPScheme;
     Scheme.decrypt := Scheme.decrypt OpenPGPScheme;
     Scheme.sign := Scheme.sign OpenPGPScheme;
     Scheme.verify := Scheme.verify OpenPGPScheme |}.

Definition km_locked : @KeyManager Remote :=
  __init__ alice "https://nicknym.leap.se:6425" (Some "session")
    (Some "/etc/ca.crt") (Some "https://api.leap.se") (Some "1")
    (Some "uid1") LockedScheme fetcher.

(** A nickserver that answers with a JSON list. *)
Definition frank : string := "frank@leap.se".

Definition odd_nickserver : Remote :=
  [ (frank, ok_response (JArr [JStr "openpgp"])) ].

Definition odd_world (sol : Soledad) : @World Remote :=
  {| soledad := sol; remote := odd_nickserver; trace := [] |}.

(** A stored public key of a class this Key Manager does not know. *)
Definition x509_doc : Content :=
  {| c_tags := [KEYMANAGER_KEY_TAG]; c_type := str_class X509Key;
     c_address := bob; c_key_data := "certificate"; c_private := false |}.

End Demo.

(** * Properties *)

Section Properties.

Context {Remote : Type}.
Implicit Types (self : @KeyManager Remote) (w : @World Remote).
Local Open Scope list_scope.

(** ** Counting calls *)

Lemma count_app (p : Event -> bool) (t1 t2 : list Event) :
  count p (t1 ++ t2) = count p t1 + count p t2.
Proof.
  unfold count. rewrite List.filter_app, length_app. reflexivity.
Qed.

Lemma network_calls_app (t1 t2 : list Event) :
  network_calls (t1 ++ t2) = network_calls t1 + network_calls t2.
Proof. apply count_app. Qed.

Ltac count_trace :=
  simpl; rewrite ?network_calls_app, ?count_app;
  unfold network_calls, count; simpl; lia.

(** ** The transport helpers *)

(** [_get] unfolded: the CA check, the request, then the checks on the
    answer. *)
Lemma _get_eq self uri data w :
  _get self uri data w =
  match _ca_cert_path self with
  | None => (Err (AssertionError "We need the CA certificate path!"), w)
  | Some ca =>
      let (r, remote') :=
        fetcher_get (_fetcher self) (remote w) uri data (Some ca) in
      let w1 := {| soledad := soledad w; remote := remote';
                   trace := trace w ++ [EvGet uri data (Some ca)] |} in
      match r with
      | Err e => (Err e, w1)
      | Ok res =>
          match raise_for_status res with
          | Some e => (Err e, w1)
          | None =>
              match headers res !! "content-type" with
              | None => (Err (KeyError "content-type"), w1)
              | Some ct =>
                  if String.prefix "application/json" ct then (Ok res, w1)
                  else (Err (AssertionError "Content-type is not JSON."), w1)
              end
          end
      end
  end.
Proof.
  unfold _get, bind, leap_assert, requests_get, call_raise_for_status,
    headers_getitem, ret, raise.
  destruct (_ca_cert_path self) as [ca|]; simpl; [|reflexivity].
  destruct (fetcher_get _ _ _ _ _) as [[res|e] remote']; [|reflexivity].
  destruct (raise_for_status res); [reflexivity|].
  destruct (headers res !! "content-type") as [ct|]; [|reflexivity].
  destruct (String.prefix _ ct); reflexivity.
Qed.

(** Whatever [_get] does, it leaves the store alone and sends at most its
    one request. *)
Lemma _get_effect self uri data w r w' :
  _get self uri data w = (r, w') ->
  (w' = w /\ _ca_cert_path self = None
   /\ r = Err (AssertionError "We need the CA certificate path!"))
  \/ (exists remote',
        w' = {| soledad := soledad w; remote := remote';
                trace := trace w ++ [EvGet uri data (_ca_cert_path self)] |}
        /\ is_not_None (_ca_cert_path self) = true).
Proof.
  rewrite _get_eq. intros H.
  destruct (_ca_cert_path self) as [ca|].
  - right.
    destruct (fetcher_get _ _ _ _ _) as [[res|e] remote'].
    + exists remote'. split; [|reflexivity].
      destruct (raise_for_status res); [congruence|].
      destruct (headers res !! "content-type") as [ct|]; [|congruence].
      destruct (String.prefix _ ct); congruence.
    + exists remote'. split; [congruence|reflexivity].
  - left. inversion H; auto.
Qed.

Lemma _put_eq self uri data w :
  _put self uri data w =
  match _ca_cert_path self, _session_id self with
  | None, _ => (Err (AssertionError "We need the CA certificate path!"), w)
  | Some _, None =>
      (Err (AssertionError "We need a session_id to interact with webapp!"), w)
  | Some ca, Some sid =>
      let (r, remote') :=
        fetcher_put (_fetcher self) (remote w) uri data (Some ca) (Some sid) in
      let w1 := {| soledad := soledad w; remote := remote';
                   trace := trace w ++ [EvPut uri data (Some ca) (Some sid)] |} in
      match r with
      | Err e => (Err e, w1)
      | Ok res =>
          match raise_for_status res with
          | Some e => (Err e, w1)
          | None => (Ok res, w1)
          end
      end
  end.
Proof.
  unfold _put, bind, leap_assert, requests_put, call_raise_for_status,
    ret, raise.
  destruct (_ca_cert_path self) as [ca|]; simpl; [|reflexivity].
  destruct (_session_id self) as [sid|]; simpl; [|reflexivity].
  destruct (fetcher_put _ _ _ _ _ _) as [[res|e] remote']; [|reflexivity].
  destruct (raise_for_status res); reflexivity.
Qed.

(** ** The remote fetch *)

Lemma fetch_outcome_intro self address w :
  fetch_outcome self address w
    (_fetch_keys_from_server self address w).1
    (_fetch_keys_from_server self address w).2.
Proof.
  unfold _fetch_keys_from_server, bind, lift, wrapper_map_getitem, ret,
    raise, scheme_call.
  destruct (_get self _ _ w) as [r0 w0] eqn:Hget.
  apply _get_effect in Hget as [(-> & Hca & ->)|(remote' & -> & Hca)].
  { simpl. by apply fetch_no_ca. }
  destruct r0 as [res|e]; [|apply fetch_no_import].
  destruct (json res) as [server_keys|e]; [|apply fetch_no_import].
  destruct (py_in OPENPGP_KEY server_keys) as [[|]|e];
    try apply fetch_no_import.
  destruct (_wrapper_map self !! OpenPGPKey) as [scheme|] eqn:Hwm;
    [|apply fetch_no_import].
  destruct (py_getitem server_keys "openpgp") as [key|e];
    [|apply fetch_no_import].
  simpl.
  destruct (Scheme.put_ascii_key scheme (soledad w) key) as [r sol'] eqn:Hput.
  simpl. rewrite <- app_assoc. simpl.
  by eapply fetch_import.
Qed.

(** What a remote fetch adds to the trace: at most one request, a GET for
    the address asked, never a PUT; and it sent that request whenever it
    returns normally. *)
Lemma fetch_outcome_trace self address w r w' :
  fetch_outcome self address w r w' ->
  exists evs,
    trace w' = trace w ++ evs
    /\ network_calls evs <= 1
    /\ count is_put evs = 0
    /\ count is_scheme evs <= 1
    /\ count (is_fetch_of address) evs = network_calls evs
    /\ (forall other, other <> address -> count (is_fetch_of other) evs = 0)
    /\ (forall x, r = Ok x -> network_calls evs = 1).
Proof.
  assert (Hother : forall other uri ca, other <> address ->
            is_fetch_of other (EvGet uri [("address", address)] ca) = false).
  { intros other uri ca Hne. simpl. apply bool_decide_eq_false.
    intros [= Heq]. congruence. }
  assert (Hsame : forall uri ca,
            is_fetch_of address (EvGet uri [("address", address)] ca) = true).
  { intros. simpl. by apply bool_decide_eq_true. }
  destruct 1 as [Hca|r remote'|scheme key r sol' remote' Hwm Hput].
  - exists []. rewrite app_nil_r.
    repeat split; auto; try discriminate.
  - eexists. split; [reflexivity|].
    unfold network_calls, count.
    cbn [List.filter is_network is_put is_scheme length].
    rewrite Hsame. repeat split; auto.
    intros other Hne. by rewrite Hother.
  - eexists. split; [reflexivity|].
    unfold network_calls, count.
    cbn [List.filter is_network is_put is_scheme is_fetch_of length].
    fold (is_fetch_of address (EvGet (_nickserver_uri self)
                                 [("address", address)] (_ca_cert_path self))).
    rewrite Hsame. repeat split; auto.
    intros other Hne.
    fold (is_fetch_of other (EvGet (_nickserver_uri self)
                               [("address", address)] (_ca_cert_path self))).
    by rewrite Hother.
Qed.

(** The store after a remote fetch: untouched, or what the OpenPGP wrapper
    made of it when importing an entry of the answer. *)
Lemma fetch_outcome_store self address w r w' :
  fetch_outcome self address w r w' ->
  soledad w' = soledad w
  \/ exists scheme key,
       _wrapper_map self !! OpenPGPKey = Some scheme
       /\ soledad w' = (Scheme.put_ascii_key scheme (soledad w) key).2.
Proof.
  destruct 1 as [Hca|r remote'|scheme key r sol' remote' Hwm Hput];
    [by left|by left|].
  right. exists scheme, key. split; [done|]. by rewrite Hput.
Qed.

(** ** Answers of the nickserver *)

Lemma py_in_assoc_get (key : string) (entries : list (string * jvalue)) :
  py_in key (JObj entries) = Ok (is_not_None (assoc_get key entries)).
Proof.
  simpl. f_equal.
  induction entries as [|[k v] entries IH]; simpl; [reflexivity|].
  destruct (String.eqb key k); simpl; auto.
Qed.

(** [_fetch_keys_from_server] once the nickserver has given a valid
    answer. *)
Lemma _fetch_keys_from_server_valid self address w ca res remote' :
  _ca_cert_path self = Some ca ->
  fetcher_get (_fetcher self) (remote w) (_nickserver_uri self)
    [("address", address)] (Some ca) = (Ok res, remote') ->
  valid_response res ->
  _fetch_keys_from_server self address w =
  match json res with
  | Err e => (Err e, sent self address w remote')
  | Ok server_keys =>
      match py_in OPENPGP_KEY server_keys with
      | Err e => (Err e, sent self address w remote')
      | Ok false => (Ok tt, sent self address w remote')
      | Ok true =>
          match _wrapper_map self !! OpenPGPKey with
          | None =>
              (Err (KeyError (str_class OpenPGPKey)),
               sent self address w remote')
          | Some scheme =>
              match py_getitem server_keys "openpgp" with
              | Err e => (Err e, sent self address w remote')
              | Ok key =>
                  scheme_call OpenPGPKey (Call_put_ascii_key key)
                    (fun sol => Scheme.put_ascii_key scheme sol key)
                    (sent self address w remote')
              end
          end
      end
  end.
Proof.
  intros Hca Hget (Hstatus & ct & Hct & Hjson).
  unfold _fetch_keys_from_server, bind at 1.
  rewrite _get_eq, Hca, Hget, Hstatus, Hct, Hjson.
  unfold sent. rewrite Hca.
  unfold bind, lift, wrapper_map_getitem, ret, raise.
  destruct (json res) as [server_keys|e]; [|reflexivity].
  destruct (py_in OPENPGP_KEY server_keys) as [[|]|e]; try reflexivity.
  destruct (_wrapper_map self !! OpenPGPKey) as [scheme|]; [|reflexivity].
  destruct (py_getitem server_keys "openpgp") as [key|e]; reflexivity.
Qed.

(** ** Key lookup *)

(** [get_key] unfolded into its stages. *)
Lemma get_key_eq self address ktype private fetch_remote w :
  get_key self address ktype private fetch_remote w =
  match _wrapper_map self !! ktype with
  | None =>
      (Err (AssertionError
              ("Unkown key type: " ++ str_class ktype ++ ".")%string), w)
  | Some scheme =>
      let w0 := log (EvScheme ktype (Call_get_key address private)) w in
      match Scheme.get_key scheme (soledad w) address private with
      | Err (KeyNotFound msg) =>
          if negb fetch_remote || private then (Err (KeyNotFound msg), w0)
          else
            match _fetch_keys_from_server self address w0 with
            | (Ok _, wf) =>
                (Scheme.get_key scheme (soledad wf) address false,
                 log (EvScheme ktype (Call_get_key address false)) wf)
            | (Err e, wf) => (Err e, wf)
            end
      | r => (r, w0)
      end
  end.
Proof.
  unfold get_key, bind at 1, leap_assert.
  destruct (_wrapper_map self !! ktype) as [scheme|] eqn:Hwm; simpl;
    [|reflexivity].
  unfold try_except_KeyNotFound, bind at 1, wrapper_map_getitem.
  rewrite Hwm. unfold ret at 1, scheme_query at 1.
  destruct (Scheme.get_key scheme (soledad w) address private)
    as [key|[]]; try reflexivity.
  destruct (negb fetch_remote || private); [reflexivity|].
  unfold bind at 1.
  destruct (_fetch_keys_from_server self address _) as [[[]|e] wf];
    [|reflexivity].
  reflexivity.
Qed.

(** C9. With a key type that has no registered wrapper, [get_key] fails
    with the unknown-key-type assertion whatever the address and the
    flags, and the world is left exactly as it was: no lookup in the local
    store and no request were made. *)
Theorem get_key_unknown_type
    self address ktype private fetch_remote w :
  _wrapper_map self !! ktype = None ->
  get_key self address ktype private fetch_remote w
  = (Err (AssertionError
            ("Unkown key type: " ++ str_class ktype ++ ".")%string), w).
Proof.
  intros Hwm. rewrite get_key_eq, Hwm. reflexivity.
Qed.

(** C7. When the wrapper registered for the key type finds a public key
    for the address in the local store, [get_key] with [private=False]
    returns that key after this one lookup: no request is sent, and the
    local store and the remote servers are unchanged. *)
Theorem get_key_local_hit
    self address ktype scheme fetch_remote w key :
  _wrapper_map self !! ktype = Some scheme ->
  Scheme.get_key scheme (soledad w) address false = Ok key ->
  let run := get_key self address ktype false fetch_remote w in
  run.1 = Ok key
  /\ trace run.2 = trace w ++ [EvScheme ktype (Call_get_key address false)]
  /\ network_calls (trace run.2) = network_calls (trace w)
  /\ soledad run.2 = soledad w
  /\ remote run.2 = remote w.
Proof.
  intros Hwm Hkey run. subst run.
  rewrite get_key_eq, Hwm. cbv zeta. rewrite Hkey.
  repeat split. count_trace.
Qed.

(** C2. [get_key] asked for a private key, or told not to fetch, sends no
    request and leaves the local store and the remote servers unchanged,
    whatever they hold; when the local lookup raises [KeyNotFound], that
    very exception is what [get_key] raises, after this one lookup. *)
Theorem get_key_private_or_local_only
    self address ktype private fetch_remote w :
  private = true \/ fetch_remote = false ->
  let run := get_key self address ktype private fetch_remote w in
  network_calls (trace run.2) = network_calls (trace w)
  /\ soledad run.2 = soledad w
  /\ remote run.2 = remote w
  /\ (forall scheme msg,
        _wrapper_map self !! ktype = Some scheme ->
        Scheme.get_key scheme (soledad w) address private
          = Err (KeyNotFound msg) ->
        run = (Err (KeyNotFound msg),
               log (EvScheme ktype (Call_get_key address private)) w)).
Proof.
  intros Hflags run. subst run. rewrite get_key_eq.
  assert (Hguard : negb fetch_remote || private = true).
  { destruct Hflags as [-> | ->]; [apply orb_true_r|reflexivity]. }
  rewrite Hguard.
  destruct (_wrapper_map self !! ktype) as [scheme|] eqn:Hwm.
  - cbv zeta.
    destruct (Scheme.get_key scheme (soledad w) address private)
      as [key|e] eqn:Hget; [|destruct e];
      (repeat split; [count_trace|]);
      intros ? ? [= <-]; rewrite Hget; by intros [= ->].
  - repeat split. intros ? ? [=].
Qed.

(** C1. When the wrapper registered for the key type has no public key
    for the address, [get_key] with [private=False] and
    [fetch_remote=True] makes that lookup, then one remote fetch for the
    address, then the lookup for the public key again, and returns what
    this second lookup returns: the key, or its [KeyNotFound].  The fetch
    sends at most one request, and with the CA certificate path set
    exactly one: the GET that asks the nickserver for the address.  What
    the answer holds is put into the local store before the second
    lookup: when the answer is valid and is a JSON object with an
    [openpgp] entry, that entry is handed to the OpenPGP wrapper and the
    second lookup reads the store this import left; when the object has
    no such entry the store is the old one, and [get_key] raises the
    [KeyNotFound] of the lookup.  An exception raised by the fetch is
    raised by [get_key]. *)
Theorem get_key_miss_fetches_then_retries
    self address ktype scheme msg w :
  _wrapper_map self !! ktype = Some scheme ->
  Scheme.get_key scheme (soledad w) address false = Err (KeyNotFound msg) ->
  let lookup := EvScheme ktype (Call_get_key address false) in
  let run := get_key self address ktype false true w in
  let fetch := _fetch_keys_from_server self address (log lookup w) in
  run = match fetch.1 with
        | Ok _ => (Scheme.get_key scheme (soledad fetch.2) address false,
                   log lookup fetch.2)
        | Err e => (Err e, fetch.2)
        end
  /\ (exists evs,
        trace fetch.2 = trace w ++ lookup :: evs
        /\ network_calls evs <= 1
        /\ count is_put evs = 0
        /\ count is_scheme evs <= 1
        /\ (forall x, fetch.1 = Ok x ->
              network_calls evs = 1
              /\ count (is_fetch_of address) evs = 1
              /\ trace run.2 = trace w ++ lookup :: evs ++ [lookup]))
  /\ (soledad fetch.2 = soledad w
      \/ exists pgp key,
           _wrapper_map self !! OpenPGPKey = Some pgp
           /\ soledad fetch.2
              = (Scheme.put_ascii_key pgp (soledad w) key).2)
  /\ (forall ca r remote',
        _ca_cert_path self = Some ca ->
        fetcher_get (_fetcher self) (remote w) (_nickserver_uri self)
          [("address", address)] (Some ca) = (r, remote') ->
        let get := EvGet (_nickserver_uri self) [("address", address)]
                         (Some ca) in
        (exists rest,
           trace run.2 = trace w ++ lookup :: get :: rest
           /\ network_calls rest = 0)
        /\ (forall res entries,
              r = Ok res -> valid_response res ->
              json res = Ok (JObj entries) ->
              match assoc_get OPENPGP_KEY entries with
              | None =>
                  run = (Err (KeyNotFound msg),
                         {| soledad := soledad w; remote := remote';
                            trace := trace w ++ [lookup; get; lookup] |})
              | Some entry =>
                  forall pgp,
                    _wrapper_map self !! OpenPGPKey = Some pgp ->
                    let import :=
                      Scheme.put_ascii_key pgp (soledad w) entry in
                    let put :=
                      EvScheme OpenPGPKey (Call_put_ascii_key entry) in
                    run = match import.1 with
                          | Ok _ =>
                              (Scheme.get_key scheme import.2 address false,
                               {| soledad := import.2; remote := remote';
                                  trace := trace w
                                           ++ [lookup; get; put; lookup] |})
                          | Err e =>
                              (Err e,
                               {| soledad := import.2; remote := remote';
                                  trace := trace w ++ [lookup; get; put] |})
                          end
              end)).
Proof.
  intros Hwm Hmiss lookup run fetch.
  assert (Hrun : run = match fetch.1 with
        | Ok _ => (Scheme.get_key scheme (soledad fetch.2) address false,
                   log lookup fetch.2)
        | Err e => (Err e, fetch.2)
        end).
  { subst run. rewrite get_key_eq, Hwm. cbv zeta. rewrite Hmiss. simpl.
    fold lookup. fold fetch. by destruct fetch as [[[]|e] wf]. }
  pose proof (fetch_outcome_intro self address (log lookup w)) as Hout.
  fold fetch in Hout.
  split; [exact Hrun|split; [|split]].
  - destruct (fetch_outcome_trace _ _ _ _ _ Hout)
      as (evs & Htr & Hle & Hput & Hsch & Hfetch & _ & Hok).
    exists evs. simpl in Htr. rewrite <- app_assoc in Htr. simpl in Htr.
    repeat split; try done.
    + by eapply Hok.
    + rewrite Hfetch. by eapply Hok.
    + rewrite Hrun, H. simpl. rewrite Htr, <- app_assoc. reflexivity.
  - destruct (fetch_outcome_store _ _ _ _ _ Hout) as [Hs|Hs]; [by left|].
    by right.
  - intros ca r remote' Hca Hget get. split.
    + (* exactly one request *)
      rewrite Hrun.
      inversion Hout as [Hnone Hr Hw|r0 remote0 Hr Hw
                        |pgp key r0 sol' remote0 Hpgp Himport Hr Hw].
      * congruence.
      * rewrite Hca. fold get.
        destruct (fetch.1) as [[]|e]; simpl; rewrite <- !app_assoc;
          eexists; (split; [reflexivity|]);
          unfold network_calls, count; reflexivity.
      * rewrite Hca. fold get.
        destruct (fetch.1) as [[]|e]; simpl; rewrite <- !app_assoc;
          eexists; (split; [reflexivity|]);
          unfold network_calls, count; reflexivity.
    + (* what the answer holds *)
      intros res entries -> Hvalid Hjson.
      assert (Hfetch : fetch = _fetch_keys_from_server self address
                                 (log lookup w)) by reflexivity.
      rewrite (_fetch_keys_from_server_valid self address (log lookup w)
                 ca res remote' Hca Hget Hvalid) in Hfetch.
      rewrite Hjson, py_in_assoc_get in Hfetch.
      unfold sent in Hfetch. rewrite Hca in Hfetch. fold get in Hfetch.
      destruct (assoc_get OPENPGP_KEY entries) as [entry|] eqn:Hentry.
      * intros pgp Hpgp import put.
        simpl in Hfetch. rewrite Hpgp in Hfetch.
        unfold OPENPGP_KEY in Hentry. rewrite Hentry in Hfetch.
        unfold scheme_call in Hfetch. simpl in Hfetch.
        fold import in Hfetch. fold put in Hfetch.
        rewrite Hrun, Hfetch.
        clearbody import. destruct import as [[[]|e] sol'];
          unfold log; simpl; by rewrite <- !app_assoc.
      * simpl in Hfetch. rewrite Hrun, Hfetch. unfold log. simpl.
        rewrite Hmiss. by rewrite <- !app_assoc.
Qed.

(** ** The dispatcher *)

Lemma encrypt_eq self data pubkey passphrase other w :
  encrypt self data pubkey passphrase other w =
  match _wrapper_map self !! klass pubkey with
  | None => (Err (AssertionError "Unknown key type."), w)
  | Some scheme =>
      if private pubkey then (Err (AssertionError "Key is not public."), w)
      else scheme_call (klass pubkey)
             (Call_encrypt data pubkey passphrase other)
             (fun sol => Scheme.encrypt scheme sol data pubkey passphrase other)
             w
  end.
Proof.
  unfold encrypt, bind, leap_assert_type, leap_assert, wrapper_map_getitem.
  simpl.
  destruct (_wrapper_map self !! klass pubkey); simpl; [|reflexivity].
  destruct (private pubkey); reflexivity.
Qed.

Lemma decrypt_eq self data privkey passphrase other w :
  decrypt self data privkey passphrase other w =
  match _wrapper_map self !! klass privkey with
  | None => (Err (AssertionError "Unknown key type."), w)
  | Some scheme =>
      if private privkey then
        scheme_call (klass privkey)
          (Call_decrypt data privkey passphrase other)
          (fun sol => Scheme.decrypt scheme sol data privkey passphrase other)
          w
      else (Err (AssertionError "Key is not private."), w)
  end.
Proof.
  unfold decrypt, bind, leap_assert_type, leap_assert, wrapper_map_getitem.
  simpl.
  destruct (_wrapper_map self !! klass privkey); simpl; [|reflexivity].
  destruct (private privkey); reflexivity.
Qed.

Lemma sign_eq self data privkey w :
  sign self data privkey w =
  match _wrapper_map self !! klass privkey with
  | None => (Err (AssertionError "Unknown key type."), w)
  | Some scheme =>
      if private privkey then
        scheme_call (klass privkey) (Call_sign data privkey)
          (fun sol => Scheme.sign scheme sol data privkey) w
      else (Err (AssertionError "Key is not private."), w)
  end.
Proof.
  unfold sign, bind, leap_assert_type, leap_assert, wrapper_map_getitem.
  simpl.
  destruct (_wrapper_map self !! klass privkey); simpl; [|reflexivity].
  destruct (private privkey); reflexivity.
Qed.

Lemma verify_eq self data pubkey w :
  verify self data pubkey w =
  match _wrapper_map self !! klass pubkey with
  | None => (Err (AssertionError "Unknown key type."), w)
  | Some scheme =>
      if private pubkey then (Err (AssertionError "Key is not public."), w)
      else scheme_call (klass pubkey) (Call_verify data pubkey)
             (fun sol => Scheme.verify scheme sol data pubkey) w
  end.
Proof.
  unfold verify, bind, leap_assert_type, leap_assert, wrapper_map_getitem.
  simpl.
  destruct (_wrapper_map self !! klass pubkey); simpl; [|reflexivity].
  destruct (private pubkey); reflexivity.
Qed.

(** C3. [encrypt], [decrypt], [sign] and [verify] check the key's class
    first and its role second, and call no wrapper when a check fails.  A
    key whose class has no registered wrapper gives the type error
    ("Unknown key type."), whatever its role, and the world is untouched.
    With a registered class, [encrypt] and [verify] refuse a private key
    ("Key is not public.") and [decrypt] and [sign] a public one ("Key is
    not private."), again leaving the world untouched.  Otherwise the call
    is the call of the same method of the wrapper registered for the
    key's class. *)
Theorem dispatch_checks_class_then_role
    self data key passphrase other w :
  (_wrapper_map self !! klass key = None ->
     encrypt self data key passphrase other w
       = (Err (AssertionError "Unknown key type."), w)
     /\ decrypt self data key passphrase other w
       = (Err (AssertionError "Unknown key type."), w)
     /\ sign self data key w = (Err (AssertionError "Unknown key type."), w)
     /\ verify self data key w
       = (Err (AssertionError "Unknown key type."), w))
  /\ (forall scheme,
        _wrapper_map self !! klass key = Some scheme ->
        (private key = true ->
           encrypt self data key passphrase other w
             = (Err (AssertionError "Key is not public."), w)
           /\ verify self data key w
             = (Err (AssertionError "Key is not public."), w)
           /\ decrypt self data key passphrase other w
             = scheme_call (klass key)
                 (Call_decrypt data key passphrase other)
                 (fun sol =>
                    Scheme.decrypt scheme sol data key passphrase other) w
           /\ sign self data key w
             = scheme_call (klass key) (Call_sign data key)
                 (fun sol => Scheme.sign scheme sol data key) w)
        /\ (private key = false ->
           decrypt self data key passphrase other w
             = (Err (AssertionError "Key is not private."), w)
           /\ sign self data key w
             = (Err (AssertionError "Key is not private."), w)
           /\ encrypt self data key passphrase other w
             = scheme_call (klass key)
                 (Call_encrypt data key passphrase other)
                 (fun sol =>
                    Scheme.encrypt scheme sol data key passphrase other) w
           /\ verify self data key w
             = scheme_call (klass key) (Call_verify data key)
                 (fun sol => Scheme.verify scheme sol data key) w)).
Proof.
  rewrite encrypt_eq, decrypt_eq, sign_eq, verify_eq.
  split.
  - intros ->. auto.
  - intros scheme ->. split; intros ->; auto.
Qed.

(** ** Publishing *)

Lemma send_key_eq self ktype w :
  send_key self ktype w =
  if bool_decide (ktype = OpenPGPKey) then
    match get_key self (_address self) ktype false false w with
    | (Ok pubkey, w1) =>
        match _put self
                (pubkey_uri (_api_uri self) (_api_version self) (_uid self))
                [(PUBKEY_KEY, key_data pubkey)] w1 with
        | (Ok _, w2) => (Ok tt, w2)
        | (Err e, w2) => (Err e, w2)
        end
    | (Err e, w1) => (Err e, w1)
    end
  else
    (Err (AssertionError
            "For now we only know how to send OpenPGP public keys."), w).
Proof.
  unfold send_key, bind at 1, leap_assert.
  destruct (bool_decide (ktype = OpenPGPKey)); simpl; [|reflexivity].
  unfold bind at 1.
  destruct (get_key _ _ _ _ _ w) as [[pubkey|e] w1]; [|reflexivity].
  unfold bind, ret.
  destruct (_put _ _ _ w1) as [[res|e] w2]; reflexivity.
Qed.

(** C5. [send_key] refuses every key type but [OpenPGPKey].  For
    [OpenPGPKey], when the local store has no public key for the Key
    Manager's own address, it raises the [KeyNotFound] of that lookup,
    having made the lookup and nothing else: no PUT and no other request
    was sent, and the store and the remote servers are unchanged. *)
Theorem send_key_needs_openpgp_and_local_key self w :
  (forall ktype,
     ktype <> OpenPGPKey ->
     send_key self ktype w
     = (Err (AssertionError
               "For now we only know how to send OpenPGP public keys."), w))
  /\ (forall scheme msg,
        _wrapper_map self !! OpenPGPKey = Some scheme ->
        Scheme.get_key scheme (soledad w) (_address self) false
          = Err (KeyNotFound msg) ->
        let run := send_key self OpenPGPKey w in
        run = (Err (KeyNotFound msg),
               log (EvScheme OpenPGPKey (Call_get_key (_address self) false))
                   w)
        /\ count is_put (trace run.2) = count is_put (trace w)
        /\ network_calls (trace run.2) = network_calls (trace w)
        /\ soledad run.2 = soledad w
        /\ remote run.2 = remote w).
Proof.
  split.
  - intros ktype Hne. rewrite send_key_eq.
    by rewrite bool_decide_eq_false_2.
  - intros scheme msg Hwm Hmiss run.
    assert (Hrun : run = (Err (KeyNotFound msg),
               log (EvScheme OpenPGPKey (Call_get_key (_address self) false))
                   w)).
    { subst run. rewrite send_key_eq, bool_decide_eq_true_2 by done.
      rewrite get_key_eq, Hwm. cbv zeta. rewrite Hmiss. reflexivity. }
    rewrite Hrun. repeat split; count_trace.
Qed.

(** C6. Once the CA certificate path is set, whatever goes wrong with the
    request is raised by [_fetch_keys_from_server], the local store being
    left as it was: the exception of the fetcher itself (connection and
    certificate failures), the exception of [raise_for_status] (the status
    check), the assertion on a content type that does not begin with
    [application/json].  A valid answer that is a JSON object without an
    [openpgp] entry is no error: the fetch returns normally and the local
    store is unchanged; [get_key], which fetched because its lookup of the
    public key raised [KeyNotFound], then raises that [KeyNotFound] from
    its second lookup. *)
Theorem fetch_failures_propagate_no_entry_is_no_error
    self address w ca r remote' :
  _ca_cert_path self = Some ca ->
  fetcher_get (_fetcher self) (remote w) (_nickserver_uri self)
    [("address", address)] (Some ca) = (r, remote') ->
  soledad (sent self address w remote') = soledad w
  /\ (forall e,
        r = Err e ->
        _fetch_keys_from_server self address w
        = (Err e, sent self address w remote'))
  /\ (forall res e,
        r = Ok res -> raise_for_status res = Some e ->
        _fetch_keys_from_server self address w
        = (Err e, sent self address w remote'))
  /\ (forall res content_type,
        r = Ok res -> raise_for_status res = None ->
        headers res !! "content-type" = Some content_type ->
        String.prefix "application/json" content_type = false ->
        _fetch_keys_from_server self address w
        = (Err (AssertionError "Content-type is not JSON."),
           sent self address w remote'))
  /\ (forall res entries,
        r = Ok res -> valid_response res ->
        json res = Ok (JObj entries) ->
        assoc_get OPENPGP_KEY entries = None ->
        _fetch_keys_from_server self address w
        = (Ok tt, sent self address w remote')
        /\ forall ktype scheme msg,
             _wrapper_map self !! ktype = Some scheme ->
             Scheme.get_key scheme (soledad w) address false
               = Err (KeyNotFound msg) ->
             (get_key self address ktype false true w).1
               = Err (KeyNotFound msg)
             /\ soledad (get_key self address ktype false true w).2
               = soledad w).
Proof.
  intros Hca Hget.
  assert (Hfail : forall e,
    match r with
    | Err e' => e' = e
    | Ok res =>
        match raise_for_status res with
        | Some e' => e' = e
        | None =>
            exists ct, headers res !! "content-type" = Some ct
              /\ String.prefix "application/json" ct = false
              /\ e = AssertionError "Content-type is not JSON."
        end
    end ->
    _fetch_keys_from_server self address w
    = (Err e, sent self address w remote')).
  { intros e He.
    unfold _fetch_keys_from_server, bind at 1.
    rewrite _get_eq, Hca, Hget. unfold sent. rewrite Hca.
    destruct r as [res|e']; [|by subst].
    destruct (raise_for_status res) as [e'|]; [by subst|].
    destruct He as (ct & -> & -> & ->). reflexivity. }
  split; [reflexivity|].
  split; [intros e ->; by apply Hfail|].
  split; [intros res e -> Hst; apply Hfail; by rewrite Hst|].
  split.
  { intros res ct -> Hst Hct Hpre. apply Hfail. rewrite Hst. eauto. }
  intros res entries -> Hvalid Hjson Hentry.
  assert (Hfetch : forall w0,
    soledad w0 = soledad w -> remote w0 = remote w ->
    _fetch_keys_from_server self address w0
    = (Ok tt, sent self address w0 remote')).
  { intros w0 _ Hrem.
    rewrite (_fetch_keys_from_server_valid self address w0 ca res remote');
      [|done|by rewrite Hrem|done].
    by rewrite Hjson, py_in_assoc_get, Hentry. }
  split; [by apply Hfetch|].
  intros ktype scheme msg Hwm Hmiss.
  rewrite get_key_eq, Hwm. cbv zeta. rewrite Hmiss. simpl.
  rewrite Hfetch by done. simpl. by rewrite Hmiss.
Qed.

(** C10. What a remote fetch imports depends on the answer only.  Two
    fetches, for any two addresses and from stores that hold the same,
    whose valid answers are JSON objects with the same [openpgp] entry,
    hand that same entry to the OpenPGP wrapper, raise or return the
    same, and leave the same store: the one the wrapper makes of the entry
    alone.  The address only shows in the request that was sent. *)
Theorem fetch_imports_what_the_answer_holds
    self pgp ca a1 a2 w1 w2 res1 res2 remote1 remote2 entries1 entries2 key :
  _ca_cert_path self = Some ca ->
  _wrapper_map self !! OpenPGPKey = Some pgp ->
  soledad w1 = soledad w2 ->
  fetcher_get (_fetcher self) (remote w1) (_nickserver_uri self)
    [("address", a1)] (Some ca) = (Ok res1, remote1) ->
  fetcher_get (_fetcher self) (remote w2) (_nickserver_uri self)
    [("address", a2)] (Some ca) = (Ok res2, remote2) ->
  valid_response res1 -> valid_response res2 ->
  json res1 = Ok (JObj entries1) -> json res2 = Ok (JObj entries2) ->
  assoc_get OPENPGP_KEY entries1 = Some key ->
  assoc_get OPENPGP_KEY entries2 = Some key ->
  let run1 := _fetch_keys_from_server self a1 w1 in
  let run2 := _fetch_keys_from_server self a2 w2 in
  let import := Scheme.put_ascii_key pgp (soledad w1) key in
  run1.1 = import.1 /\ run2.1 = import.1
  /\ soledad run1.2 = import.2 /\ soledad run2.2 = import.2
  /\ trace run1.2
     = trace w1 ++ [EvGet (_nickserver_uri self) [("address", a1)] (Some ca);
                    EvScheme OpenPGPKey (Call_put_ascii_key key)]
  /\ trace run2.2
     = trace w2 ++ [EvGet (_nickserver_uri self) [("address", a2)] (Some ca);
                    EvScheme OpenPGPKey (Call_put_ascii_key key)].
Proof.
  intros Hca Hwm Hsol Hget1 Hget2 Hv1 Hv2 Hj1 Hj2 He1 He2 run1 run2 import.
  subst run1 run2 import.
  rewrite (_fetch_keys_from_server_valid self a1 w1 ca res1 remote1)
    by done.
  rewrite (_fetch_keys_from_server_valid self a2 w2 ca res2 remote2)
    by done.
  rewrite Hj1, Hj2, !py_in_assoc_get, He1, He2, Hwm. simpl.
  unfold OPENPGP_KEY in He1, He2. rewrite He1, He2.
  unfold scheme_call. simpl. rewrite <- Hsol, Hca.
  destruct (Scheme.put_ascii_key pgp (soledad w1) key) as [r sol'].
  simpl. rewrite <- !app_assoc. done.
Qed.

(** ** Refreshing *)

(** Python's [map] with a function that leaves the world alone. *)
Lemma py_map_pure {A B C : Type} (f : A -> @M Remote B)
    (pa : A -> C) (pb : B -> C) :
  (forall x w, exists r,
     f x w = (r, w) /\ forall y, r = Ok y -> pb y = pa x) ->
  forall l w, exists r,
    py_map f l w = (r, w)
    /\ forall ys, r = Ok ys -> map pb ys = map pa l.
Proof.
  intros Hf l w. induction l as [|x l (r & IH & Hmap)]; cbn [py_map].
  - eexists. split; [reflexivity|]. by intros ? [= <-].
  - unfold bind at 1. destruct (Hf x w) as (rx & -> & Hx).
    destruct rx as [y|e].
    + unfold bind at 1. rewrite IH. destruct r as [ys|e].
      * eexists. split; [reflexivity|]. intros ? [= <-].
        cbn [map]. f_equal; [by apply Hx|by apply Hmap].
      * eexists. split; [reflexivity|]. intros ? [=].
    + eexists. split; [reflexivity|]. intros ? [=].
Qed.

(** Rebuilding the keys from the documents does not touch the world, and
    the keys it gives carry the addresses of the documents, in order. *)
Lemma py_map_build_keys self (docs : list Content) w :
  exists r,
    py_map (fun doc =>
              klass <- _key_class_from_type self (c_type doc) ;;
              ret (build_key_from_dict klass (c_address doc) doc)) docs w
    = (r, w)
    /\ forall keys, r = Ok keys -> map address keys = map c_address docs.
Proof.
  apply py_map_pure. intros doc w0.
  unfold bind, _key_class_from_type.
  destruct (last _) as [klass|].
  - eexists. split; [reflexivity|]. by intros ? [= <-].
  - eexists. split; [reflexivity|]. intros ? [=].
Qed.

Lemma get_all_keys_in_local_db_effect self (private : bool) w :
  let flag := if private then "1" else "0" in
  exists r,
    get_all_keys_in_local_db self private w
    = (r, log (EvIndex TAGS_PRIVATE_INDEX KEYMANAGER_KEY_TAG flag) w)
    /\ forall keys,
         r = Ok keys ->
         map address keys
         = map c_address (get_from_index (soledad w) TAGS_PRIVATE_INDEX
                            KEYMANAGER_KEY_TAG flag).
Proof.
  intros flag. unfold get_all_keys_in_local_db, bind at 1,
    soledad_get_from_index.
  fold flag.
  destruct (py_map_build_keys self
              (get_from_index (soledad w) TAGS_PRIVATE_INDEX
                 KEYMANAGER_KEY_TAG flag)
              (log (EvIndex TAGS_PRIVATE_INDEX KEYMANAGER_KEY_TAG flag) w))
    as (r & Hmap & Haddr).
  exists r. split; [exact Hmap|exact Haddr].
Qed.



(** ** Preconditions *)

Lemma _put_unconfigured self uri data w :
  _ca_cert_path self = None \/ _session_id self = None ->
  exists msg, _put self uri data w = (Err (AssertionError msg), w).
Proof.
  rewrite _put_eq. intros [-> | Hsid]; [eauto|].
  rewrite Hsid. destruct (_ca_cert_path self); eauto.
Qed.

Lemma _fetch_keys_from_server_no_ca self address w :
  _ca_cert_path self = None ->
  _fetch_keys_from_server self address w
  = (Err (AssertionError "We need the CA certificate path!"), w).
Proof.
  intros Hca. unfold _fetch_keys_from_server, bind at 1.
  by rewrite _get_eq, Hca.
Qed.

Lemma refresh_loop_no_ca self (addresses : list string) w :
  _ca_cert_path self = None ->
  exists r,
    for_each addresses (fun address =>
      if String.eqb address (_address self) then ret tt
      else _fetch_keys_from_server self address) w
    = (r, w).
Proof.
  intros Hca. induction addresses as [|x l (r & IH)]; cbn [for_each].
  - by eexists.
  - unfold bind. destruct (String.eqb x (_address self)).
    + change (ret tt w) with (@Ok unit tt, w). eauto.
    + rewrite _fetch_keys_from_server_no_ca by done. eauto.
Qed.

(** C8, as the code has it.  The checks on the key's class and role come
    first: when one fails, the operation has done nothing, and the world
    is as it was.  The checks on the configuration are made by [_get] and
    [_put], just before the request they guard: without a CA certificate
    path, [_get], [_put] and the remote fetch raise at once, and without a
    session id so does [_put].  An operation that looks into the local
    store before it needs the network has done so by then: [send_key]
    without a session id or a CA certificate path fails, having at most
    looked up its own public key; [get_key] and [refresh_keys] without a
    CA certificate path have only queried the store.  In all these cases
    no request is sent, and the local store and the remote servers are
    unchanged. *)
Theorem preconditions_fail_before_any_request self w :
  (forall address ktype private fetch_remote,
     _wrapper_map self !! ktype = None ->
     exists e,
       get_key self address ktype private fetch_remote w = (Err e, w))
  /\ (forall data key passphrase other,
        _wrapper_map self !! klass key = None \/ private key = true ->
        (exists e, encrypt self data key passphrase other w = (Err e, w))
        /\ (exists e, verify self data key w = (Err e, w)))
  /\ (forall data key passphrase other,
        _wrapper_map self !! klass key = None \/ private key = false ->
        (exists e, decrypt self data key passphrase other w = (Err e, w))
        /\ (exists e, sign self data key w = (Err e, w)))
  /\ (_ca_cert_path self = None ->
      forall uri data,
        _get self uri data w
        = (Err (AssertionError "We need the CA certificate path!"), w))
  /\ (_ca_cert_path self = None \/ _session_id self = None ->
      forall uri data,
        exists msg, _put self uri data w = (Err (AssertionError msg), w))
  /\ (_ca_cert_path self = None ->
      forall address,
        _fetch_keys_from_server self address w
        = (Err (AssertionError "We need the CA certificate path!"), w))
  /\ (_ca_cert_path self = None \/ _session_id self = None ->
      forall ktype,
        let run := send_key self ktype w in
        (exists e, run.1 = Err e)
        /\ (trace run.2 = trace w
            \/ trace run.2
               = trace w
                 ++ [EvScheme ktype (Call_get_key (_address self) false)])
        /\ network_calls (trace run.2) = network_calls (trace w)
        /\ soledad run.2 = soledad w
        /\ remote run.2 = remote w)
  /\ (_ca_cert_path self = None ->
      (forall address ktype private fetch_remote,
         let run := get_key self address ktype private fetch_remote w in
         network_calls (trace run.2) = network_calls (trace w)
         /\ soledad run.2 = soledad w
         /\ remote run.2 = remote w)
      /\ (let run := refresh_keys self w in
          network_calls (trace run.2) = network_calls (trace w)
          /\ soledad run.2 = soledad w
          /\ remote run.2 = remote w)).
Proof.
  split.
  { intros address ktype private fetch_remote Hwm.
    rewrite get_key_eq, Hwm. eauto. }
  split.
  { intros data key passphrase other Hbad.
    rewrite encrypt_eq, verify_eq.
    destruct (_wrapper_map self !! klass key) as [scheme|]; [|eauto].
    destruct Hbad as [[=] | ->]. eauto. }
  split.
  { intros data key passphrase other Hbad.
    rewrite decrypt_eq, sign_eq.
    destruct (_wrapper_map self !! klass key) as [scheme|]; [|eauto].
    destruct Hbad as [[=] | ->]. eauto. }
  split.
  { intros Hca uri data. by rewrite _get_eq, Hca. }
  split.
  { intros Hconf uri data. by apply _put_unconfigured. }
  split.
  { intros Hca address. by apply _fetch_keys_from_server_no_ca. }
  split.
  { intros Hconf ktype run. subst run. rewrite send_key_eq.
    destruct (bool_decide (ktype = OpenPGPKey)).
    2: { simpl. repeat split; eauto. }
    rewrite get_key_eq.
    destruct (_wrapper_map self !! ktype) as [scheme|].
    2: { simpl. repeat split; eauto. }
    cbv zeta.
    destruct (Scheme.get_key scheme (soledad w) (_address self) false)
      as [pubkey|e].
    - destruct (_put_unconfigured self
                  (pubkey_uri (_api_uri self) (_api_version self) (_uid self))
                  [(PUBKEY_KEY, key_data pubkey)]
                  (log (EvScheme ktype (Call_get_key (_address self) false)) w)
                  Hconf) as (msg & ->).
      simpl. repeat split; eauto. count_trace.
    - destruct e; simpl; (repeat split; eauto); count_trace. }
  intros Hca. split.
  - intros address ktype private fetch_remote run. subst run.
    rewrite get_key_eq.
    destruct (_wrapper_map self !! ktype) as [scheme|]; [|done].
    cbv zeta.
    destruct (Scheme.get_key scheme (soledad w) address private)
      as [key|e]; [repeat split; count_trace|].
    destruct e; try (repeat split; count_trace).
    destruct (negb fetch_remote || private);
      [repeat split; count_trace|].
    rewrite _fetch_keys_from_server_no_ca by done.
    repeat split; count_trace.
  - intros run. subst run. unfold refresh_keys, bind.
    destruct (get_all_keys_in_local_db_effect self false w)
      as (r & -> & _).
    destruct r as [keys|e]; [|repeat split; count_trace].
    destruct (refresh_loop_no_ca self (py_set (map address keys))
                (log (EvIndex TAGS_PRIVATE_INDEX KEYMANAGER_KEY_TAG "0") w)
                Hca) as (r & ->).
    repeat split; count_trace.
Qed.

End Properties.

(** * The properties at work on the small installation *)

Local Open Scope list_scope.

(** Bob's key is not in the store: one lookup, one request, the import,
    the second lookup. *)
Example demo_get_bob :
  get_key Demo.km Demo.bob OpenPGPKey false true (Demo.world Demo.own_keys)
  = (Ok {| klass := OpenPGPKey; address := Demo.bob;
           key_data := "bob@leap.se PUBLIC KEY"; private := false |},
     {| soledad := Demo.own_keys
                   ++ [Demo.pub_doc Demo.bob "bob@leap.se PUBLIC KEY"];
        remote := Demo.nickserver;
        trace := [EvScheme OpenPGPKey (Call_get_key Demo.bob false);
                  EvGet "https://nicknym.leap.se:6425" [("address", Demo.bob)]
                        (Some "/etc/ca.crt");
                  EvScheme OpenPGPKey
                    (Call_put_ascii_key (JStr "bob@leap.se PUBLIC KEY"));
                  EvScheme OpenPGPKey (Call_get_key Demo.bob false)] |}).
Proof. vm_compute. reflexivity. Qed.

(** Two stored keys for Bob, one for Carol, Alice's own: one request for
    Bob and one for Carol. *)
Example demo_refresh_keys :
  let run := refresh_keys Demo.km (Demo.world Demo.with_friends) in
  run.1 = Ok tt
  /\ List.filter is_network (trace run.2)
     = [EvGet "https://nicknym.leap.se:6425" [("address", Demo.carol)]
              (Some "/etc/ca.crt");
        EvGet "https://nicknym.leap.se:6425" [("address", Demo.bob)]
              (Some "/etc/ca.crt")].
Proof. vm_compute. split; reflexivity. Qed.

(** A 404 for the first address stops the refresh. *)
Example demo_refresh_keys_stops :
  let store := Demo.own_keys
               ++ [Demo.pub_doc "dave@leap.se" "dave@leap.se PUBLIC KEY";
                   Demo.pub_doc Demo.bob "bob@leap.se OLD KEY"] in
  let run := refresh_keys Demo.km (Demo.world store) in
  run.1 = Err (HTTPError "404 Client Error: Not Found")
  /\ List.filter is_network (trace run.2)
     = [EvGet "https://nicknym.leap.se:6425" [("address", "dave@leap.se")]
              (Some "/etc/ca.crt")].
Proof. vm_compute. split; reflexivity. Qed.

Example demo_send_key :
  let run := send_key Demo.km OpenPGPKey (Demo.world Demo.own_keys) in
  run.1 = Ok tt
  /\ trace run.2
     = [EvScheme OpenPGPKey (Call_get_key Demo.alice false);
        EvPut "https://api.leap.se/1/users/uid1.json"
              [("user[public_key]", "alice@leap.se PUBLIC KEY")]
              (Some "/etc/ca.crt") (Some "session")].
Proof. vm_compute. split; reflexivity. Qed.

(** C9 at work: no wrapper for X.509 keys. *)
Lemma get_key_unknown_type_witness :
  _wrapper_map Demo.km !! Demo.X509Key = None
  /\ get_key Demo.km Demo.bob Demo.X509Key false true
       (Demo.world Demo.own_keys)
     = (Err (AssertionError
               "Unkown key type: <class 'leap.keymanager.x509.X509Key'>."),
        Demo.world Demo.own_keys).
Proof.
  assert (H : _wrapper_map Demo.km !! Demo.X509Key = None)
    by (vm_compute; reflexivity).
  split; [exact H|].
  exact (get_key_unknown_type Demo.km Demo.bob Demo.X509Key false true
           (Demo.world Demo.own_keys) H).
Defined.

(** C7 at work: Alice's own public key is in the store. *)
Lemma get_key_local_hit_witness :
  _wrapper_map Demo.km !! OpenPGPKey = Some Demo.OpenPGPScheme
  /\ Scheme.get_key Demo.OpenPGPScheme Demo.own_keys Demo.alice false
     = Ok Demo.alice_pubkey
  /\ (get_key Demo.km Demo.alice OpenPGPKey false true
        (Demo.world Demo.own_keys)).1 = Ok Demo.alice_pubkey.
Proof.
  assert (H1 : _wrapper_map Demo.km !! OpenPGPKey = Some Demo.OpenPGPScheme)
    by (vm_compute; reflexivity).
  assert (H2 : Scheme.get_key Demo.OpenPGPScheme
                 (soledad (Demo.world Demo.own_keys)) Demo.alice false
               = Ok Demo.alice_pubkey)
    by (vm_compute; reflexivity).
  split; [exact H1|split; [exact H2|]].
  exact (proj1 (get_key_local_hit Demo.km Demo.alice OpenPGPKey
                  Demo.OpenPGPScheme true (Demo.world Demo.own_keys)
                  Demo.alice_pubkey H1 H2)).
Defined.

(** C2 at work: Bob's private key is asked for; the nickserver knows Bob,
    and is not asked. *)
Lemma get_key_private_or_local_only_witness :
  (true = true \/ true = false)
  /\ get_key Demo.km Demo.bob OpenPGPKey true true (Demo.world Demo.own_keys)
     = (Err (KeyNotFound Demo.bob),
        log (EvScheme OpenPGPKey (Call_get_key Demo.bob true))
            (Demo.world Demo.own_keys)).
Proof.
  assert (H : true = true \/ true = false) by (left; reflexivity).
  split; [exact H|].
  refine (proj2 (proj2 (proj2
            (get_key_private_or_local_only Demo.km Demo.bob OpenPGPKey
               true true (Demo.world Demo.own_keys) H)))
            Demo.OpenPGPScheme Demo.bob _ _);
    vm_compute; reflexivity.
Defined.

(** C1 at work: Bob's public key is not in the store and the nickserver
    has it: one lookup, one GET, the import, the second lookup, and Bob's
    key is returned from the store it was put into. *)
Lemma get_key_miss_fetches_then_retries_witness :
  let w := Demo.world Demo.own_keys in
  _wrapper_map Demo.km !! OpenPGPKey = Some Demo.OpenPGPScheme
  /\ Scheme.get_key Demo.OpenPGPScheme (soledad w) Demo.bob false
     = Err (KeyNotFound Demo.bob)
  /\ get_key Demo.km Demo.bob OpenPGPKey false true w
     = (Ok {| klass := OpenPGPKey; address := Demo.bob;
              key_data := "bob@leap.se PUBLIC KEY"; private := false |},
        {| soledad := Demo.own_keys
                      ++ [Demo.pub_doc Demo.bob "bob@leap.se PUBLIC KEY"];
           remote := Demo.nickserver;
           trace := [EvScheme OpenPGPKey (Call_get_key Demo.bob false);
                     EvGet "https://nicknym.leap.se:6425"
                           [("address", Demo.bob)] (Some "/etc/ca.crt");
                     EvScheme OpenPGPKey
                       (Call_put_ascii_key (JStr "bob@leap.se PUBLIC KEY"));
                     EvScheme OpenPGPKey (Call_get_key Demo.bob false)] |}).
Proof.
  intros w.
  assert (H1 : _wrapper_map Demo.km !! OpenPGPKey = Some Demo.OpenPGPScheme)
    by (vm_compute; reflexivity).
  assert (H2 : Scheme.get_key Demo.OpenPGPScheme (soledad w) Demo.bob false
               = Err (KeyNotFound Demo.bob))
    by (vm_compute; reflexivity).
  assert (Hvalid : valid_response
                     (Demo.ok_response (JObj Demo.bob_entries))).
  { split; [reflexivity|].
    exists "application/json; charset=utf-8".
    split; vm_compute; reflexivity. }
  assert (Hentry : assoc_get OPENPGP_KEY Demo.bob_entries
                   = Some (JStr "bob@leap.se PUBLIC KEY")) by reflexivity.
  split; [exact H1|split; [exact H2|]].
  destruct (get_key_miss_fetches_then_retries Demo.km Demo.bob OpenPGPKey
              Demo.OpenPGPScheme Demo.bob w H1 H2)
    as (_ & _ & _ & Hanswer).
  destruct (Hanswer "/etc/ca.crt"
              (Ok (Demo.ok_response (JObj Demo.bob_entries)))
              Demo.nickserver eq_refl eq_refl) as [_ Hheld].
  specialize (Hheld (Demo.ok_response (JObj Demo.bob_entries))
                Demo.bob_entries eq_refl Hvalid eq_refl).
  rewrite Hentry in Hheld.
  rewrite (Hheld Demo.OpenPGPScheme H1).
  vm_compute. reflexivity.
Defined.

(** C6 at work: the nickserver has an answer for Carol, without a key. *)
Lemma fetch_failures_propagate_no_entry_is_no_error_witness :
  let w := Demo.world Demo.own_keys in
  let res := Demo.ok_response (JObj Demo.carol_entries) in
  _ca_cert_path Demo.km = Some "/etc/ca.crt"
  /\ fetcher_get (_fetcher Demo.km) (remote w) (_nickserver_uri Demo.km)
       [("address", Demo.carol)] (Some "/etc/ca.crt")
     = (Ok res, Demo.nickserver)
  /\ _fetch_keys_from_server Demo.km Demo.carol w
     = (Ok tt, sent Demo.km Demo.carol w Demo.nickserver)
  /\ (get_key Demo.km Demo.carol OpenPGPKey false true w).1
     = Err (KeyNotFound Demo.carol).
Proof.
  intros w res.
  assert (H1 : _ca_cert_path Demo.km = Some "/etc/ca.crt") by reflexivity.
  assert (H2 : fetcher_get (_fetcher Demo.km) (remote w)
                 (_nickserver_uri Demo.km) [("address", Demo.carol)]
                 (Some "/etc/ca.crt")
               = (Ok res, Demo.nickserver)) by reflexivity.
  assert (Hvalid : valid_response res).
  { split; [reflexivity|].
    exists "application/json; charset=utf-8".
    split; vm_compute; reflexivity. }
  split; [exact H1|split; [exact H2|]].
  destruct (proj2 (proj2 (proj2 (proj2
              (fetch_failures_propagate_no_entry_is_no_error
                 Demo.km Demo.carol w "/etc/ca.crt" (Ok res) Demo.nickserver
                 H1 H2))))
              res Demo.carol_entries eq_refl Hvalid eq_refl eq_refl)
    as [Hfetch Hretry].
  split; [exact Hfetch|].
  refine (proj1 (Hretry OpenPGPKey Demo.OpenPGPScheme Demo.carol _ _));
    vm_compute; reflexivity.
Defined.

(** C10 at work: asked for Bob or for Mallory, the nickserver answers with
    the same key, and the same key is imported. *)
Lemma fetch_imports_what_the_answer_holds_witness :
  let w := Demo.world Demo.own_keys in
  let run1 := _fetch_keys_from_server Demo.km Demo.bob w in
  let run2 := _fetch_keys_from_server Demo.km Demo.mallory w in
  assoc_get OPENPGP_KEY Demo.bob_entries
    = Some (JStr "bob@leap.se PUBLIC KEY")
  /\ assoc_get OPENPGP_KEY Demo.mallory_entries
     = Some (JStr "bob@leap.se PUBLIC KEY")
  /\ soledad run1.2 = soledad run2.2
  /\ soledad run2.2
     = Demo.own_keys ++ [Demo.pub_doc Demo.bob "bob@leap.se PUBLIC KEY"].
Proof.
  intros w run1 run2.
  assert (Hvalid : forall body, valid_response (Demo.ok_response body)).
  { intros body. split; [reflexivity|].
    exists "application/json; charset=utf-8".
    split; vm_compute; reflexivity. }
  assert (Hwm : _wrapper_map Demo.km !! OpenPGPKey = Some Demo.OpenPGPScheme)
    by (vm_compute; reflexivity).
  destruct (fetch_imports_what_the_answer_holds
              Demo.km Demo.OpenPGPScheme "/etc/ca.crt" Demo.bob Demo.mallory
              w w
              (Demo.ok_response (JObj Demo.bob_entries))
              (Demo.ok_response (JObj Demo.mallory_entries))
              Demo.nickserver Demo.nickserver
              Demo.bob_entries Demo.mallory_entries
              (JStr "bob@leap.se PUBLIC KEY")
              eq_refl Hwm eq_refl eq_refl eq_refl
              (Hvalid _) (Hvalid _) eq_refl eq_refl eq_refl eq_refl)
    as (_ & _ & Hs1 & Hs2 & _).
  split; [reflexivity|split; [reflexivity|]].
  fold run1 in Hs1. fold run2 in Hs2.
  split; [by rewrite Hs1, Hs2|exact Hs2].
Defined.

(** C3 at work: Alice's keys, and an X.509 key whatever its role. *)
Lemma dispatch_checks_class_then_role_witness :
  let w := Demo.world Demo.own_keys in
  let x509 := {| klass := Demo.X509Key; address := Demo.alice;
                 key_data := "certificate"; private := true |} in
  sign Demo.km "hello" x509 w
    = (Err (AssertionError "Unknown key type."), w)
  /\ encrypt Demo.km "hello" Demo.alice_privkey None None w
     = (Err (AssertionError "Key is not public."), w)
  /\ sign Demo.km "hello" Demo.alice_pubkey w
     = (Err (AssertionError "Key is not private."), w)
  /\ (sign Demo.km "hello" Demo.alice_privkey w).1 = Ok "signed:hello".
Proof.
  intros w x509.
  assert (Hx : _wrapper_map Demo.km !! klass x509 = None)
    by (vm_compute; reflexivity).
  assert (Hpub : _wrapper_map Demo.km !! klass Demo.alice_pubkey
                 = Some Demo.OpenPGPScheme) by (vm_compute; reflexivity).
  assert (Hpriv : _wrapper_map Demo.km !! klass Demo.alice_privkey
                  = Some Demo.OpenPGPScheme) by (vm_compute; reflexivity).
  split.
  { exact (proj1 (proj2 (proj2
      (proj1 (dispatch_checks_class_then_role Demo.km "hello" x509
                None None w) Hx)))). }
  split.
  { exact (proj1 (proj1
      (proj2 (dispatch_checks_class_then_role Demo.km "hello"
                Demo.alice_privkey None None w)
         Demo.OpenPGPScheme Hpriv) eq_refl)). }
  split.
  { exact (proj1 (proj2 (proj2
      (proj2 (dispatch_checks_class_then_role Demo.km "hello"
                Demo.alice_pubkey None None w)
         Demo.OpenPGPScheme Hpub) eq_refl))). }
  rewrite (proj2 (proj2 (proj2 (proj1
      (proj2 (dispatch_checks_class_then_role Demo.km "hello"
                Demo.alice_privkey None None w)
         Demo.OpenPGPScheme Hpriv) eq_refl)))).
  reflexivity.
Defined.

(** C5 at work: before Alice has generated her keys. *)
Lemma send_key_needs_openpgp_and_local_key_witness :
  let w := Demo.world [] in
  send_key Demo.km Demo.X509Key w
    = (Err (AssertionError
              "For now we only know how to send OpenPGP public keys."), w)
  /\ send_key Demo.km OpenPGPKey w
     = (Err (KeyNotFound Demo.alice),
        log (EvScheme OpenPGPKey (Call_get_key Demo.alice false)) w).
Proof.
  intros w.
  destruct (send_key_needs_openpgp_and_local_key Demo.km w) as [Hk Hmiss].
  split.
  - apply Hk. discriminate.
  - refine (proj1 (Hmiss Demo.OpenPGPScheme Demo.alice _ _));
      vm_compute; reflexivity.
Defined.


(** C8 as stated does not hold: before login, [send_key] looks up Alice's
    public key in the local store, and only then fails on the missing
    session id. *)
Lemma send_key_reads_store_before_session_check :
  let w := Demo.world Demo.own_keys in
  let run := send_key Demo.km_no_session OpenPGPKey w in
  _session_id Demo.km_no_session = None
  /\ run.1
     = Err (AssertionError "We need a session_id to interact with webapp!")
  /\ trace w = []
  /\ trace run.2 = [EvScheme OpenPGPKey (Call_get_key Demo.alice false)]
  /\ run.2 <> w.
Proof.
  vm_compute. repeat split. discriminate.
Qed.

(** C8 at work: the same call sends no request and leaves the store
    alone; without a CA certificate path, looking for Bob's key stops
    before the request. *)
Lemma preconditions_fail_before_any_request_witness :
  let w := Demo.world Demo.own_keys in
  network_calls (trace (send_key Demo.km_no_session OpenPGPKey w).2) = 0
  /\ soledad (send_key Demo.km_no_session OpenPGPKey w).2 = Demo.own_keys
  /\ network_calls
       (trace (get_key Demo.km_no_ca Demo.bob OpenPGPKey false true w).2) = 0.
Proof.
  intros w.
  destruct (preconditions_fail_before_any_request Demo.km_no_session w)
    as (_ & _ & _ & _ & _ & _ & Hsend & _).
  destruct (Hsend (or_intror eq_refl) OpenPGPKey) as (_ & _ & Hnet & Hsol & _).
  destruct (preconditions_fail_before_any_request Demo.km_no_ca w)
    as (_ & _ & _ & _ & _ & _ & _ & Hca).
  destruct (Hca eq_refl) as [Hget _].
  destruct (Hget Demo.bob OpenPGPKey false true) as (Hnet' & _).
  split; [exact Hnet|]. split; [exact Hsol|exact Hnet'].
Defined.

(** * Further properties of the Key Manager *)

Section Coverage.

Context {Remote : Type}.
Implicit Types (self : @KeyManager Remote) (w : @World Remote).

(** Gives the events a run has added to the trace and counts them. *)
Ltac events_added :=
  cbn [fst snd trace soledad remote log];
  rewrite <- ?app_assoc; cbn [app];
  first [ exists []; rewrite app_nil_r; split; [reflexivity|]
        | eexists; split; [reflexivity|] ];
  unfold network_calls, count;
  cbn [List.filter is_network is_put is_scheme is_lookup is_import length];
  repeat split; auto; lia.

(** ** Publishing the key *)

(** What [send_key] does for [OpenPGPKey] once its own public key is
    found: the PUT, through [_put]. *)
Lemma send_key_found self scheme pubkey w :
  _wrapper_map self !! OpenPGPKey = Some scheme ->
  Scheme.get_key scheme (soledad w) (_address self) false = Ok pubkey ->
  send_key self OpenPGPKey w =
  match _put self (pubkey_uri (_api_uri self) (_api_version self) (_uid self))
          [(PUBKEY_KEY, key_data pubkey)]
          (log (EvScheme OpenPGPKey (Call_get_key (_address self) false)) w)
  with
  | (Ok _, w2) => (Ok tt, w2)
  | (Err e, w2) => (Err e, w2)
  end.
Proof.
  intros Hwm Hkey.
  rewrite send_key_eq, bool_decide_eq_true_2 by done.
  rewrite get_key_eq, Hwm. cbv zeta. by rewrite Hkey.
Qed.

(** X1. With the CA certificate path and the session id set and its own
    public key in the local store, [send_key] sends one PUT to
    [<api_uri>/<api_version>/users/<uid>.json] whose only field is
    [user[public_key]] with the data of that public key, verified against
    the CA certificate and carrying the session id; when the answer
    passes the status check it returns, the local store being
    unchanged. *)
Theorem send_key_puts_public_key
    self scheme pubkey ca sid w res remote' :
  _ca_cert_path self = Some ca ->
  _session_id self = Some sid ->
  _wrapper_map self !! OpenPGPKey = Some scheme ->
  Scheme.get_key scheme (soledad w) (_address self) false = Ok pubkey ->
  let uri := pubkey_uri (_api_uri self) (_api_version self) (_uid self) in
  let data := [("user[public_key]", key_data pubkey)] in
  fetcher_put (_fetcher self) (remote w) uri data (Some ca) (Some sid)
    = (Ok res, remote') ->
  raise_for_status res = None ->
  send_key self OpenPGPKey w
  = (Ok tt,
     {| soledad := soledad w; remote := remote';
        trace := trace w
                 ++ [EvScheme OpenPGPKey (Call_get_key (_address self) false);
                     EvPut uri data (Some ca) (Some sid)] |}).
Proof.
  intros Hca Hsid Hwm Hkey uri data Hput Hstatus.
  rewrite (send_key_found self scheme pubkey) by done.
  rewrite _put_eq, Hca, Hsid. simpl. fold uri.
  change [(PUBKEY_KEY, key_data pubkey)] with data.
  rewrite Hput, Hstatus. by rewrite <- app_assoc.
Qed.

(** X2. In the same situation, a PUT that fails makes [send_key] raise:
    the exception of the fetcher when the request itself fails, the
    exception of [raise_for_status] when the answer does not pass the
    status check.  The request was sent once and the local store is
    unchanged. *)
Theorem send_key_put_failure_propagates
    self scheme pubkey ca sid w r remote' e :
  _ca_cert_path self = Some ca ->
  _session_id self = Some sid ->
  _wrapper_map self !! OpenPGPKey = Some scheme ->
  Scheme.get_key scheme (soledad w) (_address self) false = Ok pubkey ->
  let uri := pubkey_uri (_api_uri self) (_api_version self) (_uid self) in
  let data := [("user[public_key]", key_data pubkey)] in
  fetcher_put (_fetcher self) (remote w) uri data (Some ca) (Some sid)
    = (r, remote') ->
  r = Err e \/ (exists res, r = Ok res /\ raise_for_status res = Some e) ->
  send_key self OpenPGPKey w
  = (Err e,
     {| soledad := soledad w; remote := remote';
        trace := trace w
                 ++ [EvScheme OpenPGPKey (Call_get_key (_address self) false);
                     EvPut uri data (Some ca) (Some sid)] |}).
Proof.
  intros Hca Hsid Hwm Hkey uri data Hput Hfail.
  rewrite (send_key_found self scheme pubkey) by done.
  rewrite _put_eq, Hca, Hsid. simpl. fold uri.
  change [(PUBKEY_KEY, key_data pubkey)] with data.
  rewrite Hput.
  destruct Hfail as [-> | (res & -> & Hstatus)].
  - by rewrite <- app_assoc.
  - rewrite Hstatus. by rewrite <- app_assoc.
Qed.

(** X3. Whatever the key type, the configuration and the state of the
    store and of the servers, [send_key] never asks the nickserver and
    never writes to the local store: it makes at most one lookup in a key
    wrapper and sends at most one request, which is a PUT. *)
Theorem send_key_only_puts self ktype w :
  let run := send_key self ktype w in
  exists evs,
    trace run.2 = trace w ++ evs
    /\ soledad run.2 = soledad w
    /\ network_calls evs <= 1
    /\ network_calls evs = count is_put evs
    /\ count is_scheme evs = count is_lookup evs
    /\ count is_lookup evs <= 1.
Proof.
  intros run. subst run. rewrite send_key_eq.
  destruct (bool_decide (ktype = OpenPGPKey)); [|by events_added].
  rewrite get_key_eq.
  destruct (_wrapper_map self !! ktype) as [scheme|]; [|by events_added].
  cbv zeta.
  destruct (Scheme.get_key scheme (soledad w) (_address self) false)
    as [pubkey|e]; [|destruct e; by events_added].
  rewrite _put_eq.
  destruct (_ca_cert_path self) as [ca|]; [|by events_added].
  destruct (_session_id self) as [sid|]; [|by events_added].
  destruct (fetcher_put _ _ _ _ _ _) as [[res|e] remote'];
    [destruct (raise_for_status res)|]; by events_added.
Qed.

(** ** Looking up a key *)


(** X5. A key that [get_key] has returned is in the local store: asked
    again in the world it left, whether allowed to fetch or not,
    [get_key] returns the same key after one lookup and without any
    request. *)
Theorem get_key_again_is_local
    self address ktype private fetch_remote fetch_again w key w' :
  get_key self address ktype private fetch_remote w = (Ok key, w') ->
  get_key self address ktype private fetch_again w'
  = (Ok key, log (EvScheme ktype (Call_get_key address private)) w').
Proof.
  rewrite !get_key_eq.
  destruct (_wrapper_map self !! ktype) as [scheme|]; [|discriminate].
  cbv zeta.
  assert (Hhit : forall w1 : World,
    Scheme.get_key scheme (soledad w1) address private = Ok key ->
    match Scheme.get_key scheme (soledad w1) address private with
    | Err (KeyNotFound msg) =>
        if negb fetch_again || private
        then (Err (KeyNotFound msg),
              log (EvScheme ktype (Call_get_key address private)) w1)
        else
          match _fetch_keys_from_server self address
                  (log (EvScheme ktype (Call_get_key address private)) w1)
          with
          | (Ok _, wf) =>
              (Scheme.get_key scheme (soledad wf) address false,
               log (EvScheme ktype (Call_get_key address false)) wf)
          | (Err e, wf) => (Err e, wf)
          end
    | r => (r, log (EvScheme ktype (Call_get_key address private)) w1)
    end = (Ok key, log (EvScheme ktype (Call_get_key address private)) w1)).
  { intros w1 ->. reflexivity. }
  destruct (Scheme.get_key scheme (soledad w) address private)
    as [k|e] eqn:Hfirst.
  - intros [= -> <-]. apply Hhit. exact Hfirst.
  - destruct e; try discriminate.
    destruct private; [rewrite orb_true_r; discriminate|].
    destruct (negb fetch_remote); [discriminate|]. simpl.
    destruct (_fetch_keys_from_server self address _) as [[[]|e] wf];
      [|discriminate].
    intros [= Hretry <-]. apply Hhit. exact Hretry.
Qed.

(** X6. Only [KeyNotFound] sends [get_key] to the nickserver: any other
    exception of the wrapper's lookup is raised as it is after that one
    lookup, even for a public key with [fetch_remote=True]. *)
Theorem get_key_other_exception_propagates
    self address ktype scheme private fetch_remote w e :
  _wrapper_map self !! ktype = Some scheme ->
  Scheme.get_key scheme (soledad w) address private = Err e ->
  (forall msg, e <> KeyNotFound msg) ->
  get_key self address ktype private fetch_remote w
  = (Err e, log (EvScheme ktype (Call_get_key address private)) w).
Proof.
  intros Hwm Hget Hother. rewrite get_key_eq, Hwm. cbv zeta. rewrite Hget.
  destruct e; try reflexivity. by destruct (Hother msg).
Qed.

(** X7. The fallback at its best.  The public key is not in the store;
    the nickserver gives a valid answer, a JSON object with an [openpgp]
    entry; the OpenPGP wrapper imports the entry, after which the lookup
    finds a key.  Then [get_key] returns that key, and has done exactly:
    the lookup, the GET, the import, the lookup. *)
Theorem get_key_fetches_imports_and_returns
    self address ktype scheme pgp msg ca w res remote' entries entry sol' key :
  _wrapper_map self !! ktype = Some scheme ->
  _wrapper_map self !! OpenPGPKey = Some pgp ->
  Scheme.get_key scheme (soledad w) address false = Err (KeyNotFound msg) ->
  _ca_cert_path self = Some ca ->
  fetcher_get (_fetcher self) (remote w) (_nickserver_uri self)
    [("address", address)] (Some ca) = (Ok res, remote') ->
  valid_response res ->
  json res = Ok (JObj entries) ->
  assoc_get OPENPGP_KEY entries = Some entry ->
  Scheme.put_ascii_key pgp (soledad w) entry = (Ok tt, sol') ->
  Scheme.get_key scheme sol' address false = Ok key ->
  get_key self address ktype false true w
  = (Ok key,
     {| soledad := sol'; remote := remote';
        trace := trace w
                 ++ [EvScheme ktype (Call_get_key address false);
                     EvGet (_nickserver_uri self) [("address", address)]
                           (Some ca);
                     EvScheme OpenPGPKey (Call_put_ascii_key entry);
                     EvScheme ktype (Call_get_key address false)] |}).
Proof.
  intros Hwm Hpgp Hmiss Hca Hget Hvalid Hjson Hentry Himport Hfound.
  rewrite get_key_eq, Hwm. cbv zeta. rewrite Hmiss. simpl.
  rewrite (_fetch_keys_from_server_valid self address _ ca res remote')
    by done.
  rewrite Hjson, py_in_assoc_get, Hentry, Hpgp. simpl.
  unfold OPENPGP_KEY in Hentry. rewrite Hentry.
  unfold scheme_call. simpl. rewrite Himport. simpl. rewrite Hfound, Hca.
  unfold log. simpl. by rewrite <- !app_assoc.
Qed.

(** ** Generating a key *)

(** X8. [gen_key] does not check the key type: with a type that has no
    registered wrapper the lookup in the wrapper map raises [KeyError],
    the world being untouched.  With a registered type it is the
    wrapper's [gen_key] for the Key Manager's own address: it returns
    what the wrapper returns, leaves the store the wrapper leaves, and
    sends no request. *)
Theorem gen_key_for_own_address self ktype w :
  (_wrapper_map self !! ktype = None ->
   gen_key self ktype w = (Err (KeyError (str_class ktype)), w))
  /\ (forall scheme,
        _wrapper_map self !! ktype = Some scheme ->
        let made := Scheme.gen_key scheme (soledad w) (_address self) in
        gen_key self ktype w
        = (made.1,
           {| soledad := made.2; remote := remote w;
              trace := trace w
                       ++ [EvScheme ktype (Call_gen_key (_address self))] |})
        /\ network_calls (trace (gen_key self ktype w).2)
           = network_calls (trace w)).
Proof.
  unfold gen_key, bind, wrapper_map_getitem, scheme_call.
  split.
  - intros ->. reflexivity.
  - intros scheme ->. cbv zeta. unfold ret.
    destruct (Scheme.gen_key scheme (soledad w) (_address self)) as [r sol'].
    split; [reflexivity|]. simpl. rewrite network_calls_app.
    unfold network_calls, count. simpl. lia.
Qed.

(** ** From a stored type tag back to the key class *)

Lemma string_length_app (a b : string) :
  String.length (a ++ b)%string = String.length a + String.length b.
Proof. induction a as [|c a IH]; simpl; [reflexivity|by rewrite IH]. Qed.

Lemma string_app_inj_r (s a b : string) :
  (a ++ s)%string = (b ++ s)%string -> a = b.
Proof.
  revert b. induction a as [|c a IH]; intros [|d b] H; simpl in H.
  - reflexivity.
  - apply (f_equal String.length) in H.
    cbn [String.length] in H. rewrite !string_length_app in H.
    cbn [String.length] in H. lia.
  - apply (f_equal String.length) in H.
    cbn [String.length] in H. rewrite !string_length_app in H.
    cbn [String.length] in H. lia.
  - injection H as -> H. f_equal. by apply IH.
Qed.

(** Two key classes with the same [str] are the same class. *)
Lemma str_class_inj (k1 k2 : KeyClass) :
  str_class k1 = str_class k2 -> k1 = k2.
Proof.
  destruct k1 as [n1], k2 as [n2]. unfold str_class. simpl.
  intros [= H]. change (n1 ++ "'>" = n2 ++ "'>")%string in H.
  apply string_app_inj_r in H. by subst.
Qed.

(** The classes [_key_class_from_type] chooses from. *)
Lemma registered_matches self (ktype : string) (k : KeyClass) :
  In k (List.filter (fun klass => String.eqb (str_class klass) ktype)
          (map_to_list (_wrapper_map self)).*1)
  <-> is_Some (_wrapper_map self !! k) /\ str_class k = ktype.
Proof.
  rewrite filter_In, String.eqb_eq, <- list_elem_of_In, list_elem_of_fmap.
  split.
  - intros [([k' scheme] & -> & Hin) Hstr]. simpl in *.
    apply elem_of_map_to_list in Hin. eauto.
  - intros [[scheme Hk] Hstr]. split; [|done].
    exists (k, scheme). split; [done|]. by apply elem_of_map_to_list.
Qed.

Lemma _key_class_from_type_sound self ktype w k w' :
  _key_class_from_type self ktype w = (Ok k, w') ->
  w' = w /\ is_Some (_wrapper_map self !! k) /\ str_class k = ktype.
Proof.
  unfold _key_class_from_type.
  destruct (last _) as [k'|] eqn:Hlast; [|discriminate].
  intros [= -> ->]. split; [reflexivity|].
  apply (registered_matches self ktype k).
  apply last_Some in Hlast as [l' ->].
  apply in_or_app. right. by left.
Qed.

Lemma _key_class_from_type_registered self k w :
  is_Some (_wrapper_map self !! k) ->
  _key_class_from_type self (str_class k) w = (Ok k, w).
Proof.
  intros Hk.
  assert (Hin : In k (List.filter
                        (fun klass =>
                           String.eqb (str_class klass) (str_class k))
                        (map_to_list (_wrapper_map self)).*1))
    by (by apply registered_matches).
  destruct (_key_class_from_type self (str_class k) w) as [[k'|e] w']
    eqn:Hrun.
  - apply _key_class_from_type_sound in Hrun as (-> & _ & Hstr).
    by rewrite (str_class_inj _ _ Hstr).
  - exfalso. revert Hrun. unfold _key_class_from_type.
    destruct (last _) as [k'|] eqn:Hlast; [discriminate|].
    apply last_None in Hlast. rewrite Hlast in Hin. destruct Hin.
Qed.

Lemma _key_class_from_type_unknown self ktype w :
  (forall k, is_Some (_wrapper_map self !! k) -> str_class k <> ktype) ->
  _key_class_from_type self ktype w
  = (Err (IndexError "pop from empty list"), w).
Proof.
  intros Hnone.
  destruct (_key_class_from_type self ktype w) as [[k|e] w'] eqn:Hrun.
  - apply _key_class_from_type_sound in Hrun as (_ & Hk & Hstr).
    by destruct (Hnone k Hk).
  - revert Hrun. unfold _key_class_from_type.
    destruct (last _); [discriminate|]. by intros [= <- <-].
Qed.

(** X9. [_key_class_from_type] inverts [str] on the registered classes:
    given [str(k)] for a registered class [k] it returns [k]; whatever it
    returns is a registered class whose [str] is the tag it was given;
    and a tag that is the [str] of no registered class makes it raise
    [IndexError].  It leaves the world alone. *)
Theorem _key_class_from_type_inverts_str self w :
  (forall k,
     is_Some (_wrapper_map self !! k) ->
     _key_class_from_type self (str_class k) w = (Ok k, w))
  /\ (forall ktype k w',
        _key_class_from_type self ktype w = (Ok k, w') ->
        w' = w /\ is_Some (_wrapper_map self !! k) /\ str_class k = ktype)
  /\ (forall ktype,
        (forall k, is_Some (_wrapper_map self !! k) ->
                   str_class k <> ktype) ->
        _key_class_from_type self ktype w
        = (Err (IndexError "pop from empty list"), w)).
Proof.
  split; [|split].
  - intros k Hk. by apply _key_class_from_type_registered.
  - intros ktype k w' Hrun. by apply _key_class_from_type_sound in Hrun.
  - intros ktype Hnone. by apply _key_class_from_type_unknown.
Qed.

(** ** All the keys of the local store *)

(** Python's [map] with a function that leaves the world alone: it gives
    the results in order, or the first exception. *)
Lemma py_map_results {A B : Type} (f : A -> @M Remote B)
    (g : A -> Result B) :
  (forall x w, f x w = (g x, w)) ->
  forall l w, exists r,
    py_map f l w = (r, w)
    /\ (forall ys, r = Ok ys -> Forall2 (fun x y => g x = Ok y) l ys)
    /\ (forall e, r = Err e -> exists x, x ∈ l /\ g x = Err e).
Proof.
  intros Hf l w.
  induction l as [|x l (r & IH & Hok & Herr)]; cbn [py_map].
  - eexists. split; [reflexivity|]. split.
    + intros ? [= <-]. constructor.
    + intros ? [=].
  - unfold bind at 1. rewrite Hf. destruct (g x) as [y|e] eqn:Hx.
    + unfold bind at 1. rewrite IH. destruct r as [ys|e].
      * eexists. split; [reflexivity|]. split.
        -- intros ? [= <-]. constructor; [done|by apply Hok].
        -- intros ? [=].
      * eexists. split; [reflexivity|]. split; [intros ? [=]|].
        intros ? [= <-]. destruct (Herr e eq_refl) as (x' & Hin & Hx').
        exists x'. split; [by right|done].
    + eexists. split; [reflexivity|]. split; [intros ? [=]|].
      intros ? [= <-]. exists x. split; [by left|done].
Qed.

(** What [get_all_keys_in_local_db] makes of the documents of the
    index. *)
Lemma get_all_keys_in_local_db_results self (private : bool) w :
  let flag := if private then "1" else "0" in
  let docs := get_from_index (soledad w) TAGS_PRIVATE_INDEX
                KEYMANAGER_KEY_TAG flag in
  exists r,
    get_all_keys_in_local_db self private w
    = (r, log (EvIndex TAGS_PRIVATE_INDEX KEYMANAGER_KEY_TAG flag) w)
    /\ (forall keys,
          r = Ok keys ->
          Forall2 (fun doc key =>
                     is_Some (_wrapper_map self !! klass key)
                     /\ str_class (klass key) = c_type doc
                     /\ address key = c_address doc) docs keys)
    /\ (forall e,
          r = Err e ->
          e = IndexError "pop from empty list"
          /\ exists doc,
               doc ∈ docs
               /\ forall k, is_Some (_wrapper_map self !! k) ->
                            str_class k <> c_type doc).
Proof.
  intros flag docs.
  unfold get_all_keys_in_local_db, bind at 1, soledad_get_from_index.
  fold flag. fold docs.
  set (w1 := log (EvIndex TAGS_PRIVATE_INDEX KEYMANAGER_KEY_TAG flag) w).
  set (g := fun doc : Content =>
         match (_key_class_from_type self (c_type doc) w1).1 with
         | Ok k => Ok (build_key_from_dict k (c_address doc) doc)
         | Err e => Err e
         end).
  destruct (py_map_results
              (fun doc =>
                 klass <- _key_class_from_type self (c_type doc) ;;
                 ret (build_key_from_dict klass (c_address doc) doc))
              g) with (l := docs) (w := w1) as (r & Hrun & Hok & Herr).
  { intros doc w0. unfold g, bind, _key_class_from_type.
    by destruct (last _). }
  exists r. split; [exact Hrun|]. split.
  - intros keys ->. specialize (Hok keys eq_refl).
    eapply Forall2_impl; [exact Hok|].
    intros doc key Hg. unfold g in Hg.
    destruct (_key_class_from_type self (c_type doc) w1) as [[k|e] w0]
      eqn:Hk; [|discriminate].
    apply _key_class_from_type_sound in Hk as (_ & Hreg & Hstr).
    simpl in Hg. injection Hg as <-. by simpl.
  - intros e ->. destruct (Herr e eq_refl) as (doc & Hin & Hg).
    unfold g in Hg.
    destruct (_key_class_from_type self (c_type doc) w1) as [[k|e'] w0]
      eqn:Hk; [discriminate|].
    simpl in Hg. injection Hg as ->.
    assert (Hidx : e = IndexError "pop from empty list").
    { revert Hk. unfold _key_class_from_type.
      destruct (last _); [discriminate|]. by intros [= <- _]. }
    split; [exact Hidx|]. exists doc. split; [exact Hin|].
    intros k Hreg Hstr.
    rewrite <- Hstr, (_key_class_from_type_registered self k w1 Hreg) in Hk.
    discriminate.
Qed.

(** X10. [get_all_keys_in_local_db] queries the index once and does
    nothing else to the world.  When it returns, it returns one key for
    each document of the index, in order: a key of the registered class
    whose [str] is the document's type tag, bound to the document's
    address.  It returns whenever every document has the tag of a
    registered class; otherwise it raises [IndexError], and no key is
    returned at all. *)
Theorem get_all_keys_in_local_db_rebuilds_documents
    self (private : bool) w :
  let flag := if private then "1" else "0" in
  let docs := get_from_index (soledad w) TAGS_PRIVATE_INDEX
                KEYMANAGER_KEY_TAG flag in
  let run := get_all_keys_in_local_db self private w in
  run.2 = log (EvIndex TAGS_PRIVATE_INDEX KEYMANAGER_KEY_TAG flag) w
  /\ (forall keys,
        run.1 = Ok keys ->
        Forall2 (fun doc key =>
                   is_Some (_wrapper_map self !! klass key)
                   /\ str_class (klass key) = c_type doc
                   /\ address key = c_address doc) docs keys)
  /\ ((forall doc, doc ∈ docs ->
         exists k, is_Some (_wrapper_map self !! k)
                   /\ str_class k = c_type doc) ->
      exists keys, run.1 = Ok keys)
  /\ ((exists doc, doc ∈ docs
                   /\ forall k, is_Some (_wrapper_map self !! k) ->
                                str_class k <> c_type doc) ->
      run.1 = Err (IndexError "pop from empty list")).
Proof.
  intros flag docs run.
  destruct (get_all_keys_in_local_db_results self private w)
    as (r & Hrun & Hok & Herr).
  fold flag docs in Hrun, Hok, Herr. subst run. rewrite Hrun.
  split; [reflexivity|]. split; [exact Hok|]. cbn [fst]. split.
  - intros Hall. destruct r as [keys|e]; [eauto|].
    destruct (Herr e eq_refl) as (_ & doc & Hin & Hnone).
    destruct (Hall doc Hin) as (k & Hreg & Hstr).
    by destruct (Hnone k Hreg).
  - intros (doc & Hin & Hnone). destruct r as [keys|e].
    + exfalso. specialize (Hok keys eq_refl).
      apply list_elem_of_lookup in Hin as [i Hi].
      destruct (Forall2_lookup_l _ _ _ _ _ Hok Hi)
        as (key & _ & Hreg & Hstr & _).
      by destruct (Hnone (klass key) Hreg).
    + by destruct (Herr e eq_refl) as [-> _].
Qed.

(** X11. A stored public key whose type tag is the [str] of no
    registered class stops [refresh_keys] before any request: it raises
    [IndexError] having only queried the index. *)
Theorem refresh_keys_unknown_type_tag self w doc :
  doc ∈ get_from_index (soledad w) TAGS_PRIVATE_INDEX KEYMANAGER_KEY_TAG "0" ->
  (forall k, is_Some (_wrapper_map self !! k) -> str_class k <> c_type doc) ->
  refresh_keys self w
  = (Err (IndexError "pop from empty list"),
     log (EvIndex TAGS_PRIVATE_INDEX KEYMANAGER_KEY_TAG "0") w).
Proof.
  intros Hin Hnone. unfold refresh_keys, bind.
  destruct (get_all_keys_in_local_db_results self false w)
    as (r & -> & Hok & Herr).
  destruct r as [keys|e].
  - exfalso. specialize (Hok keys eq_refl).
    apply list_elem_of_lookup in Hin as [i Hi].
    destruct (Forall2_lookup_l _ _ _ _ _ Hok Hi)
      as (key & _ & Hreg & Hstr & _).
    by destruct (Hnone (klass key) Hreg).
  - by destruct (Herr e eq_refl) as [-> _].
Qed.

(** ** More on the remote fetch *)

(** X12. A remote fetch changes the local store in one way only: the
    nickserver gave a valid answer, its body is a JSON object with an
    [openpgp] entry, and the store is the one the OpenPGP wrapper left
    when it was handed that entry.  In every other case (no CA
    certificate path, a failed request, an answer that does not pass the
    checks, a body that is not JSON, or not an object, or has no
    [openpgp] entry) the store is the one before. *)
Theorem fetch_changes_store_only_by_import self address w :
  let run := _fetch_keys_from_server self address w in
  soledad run.2 <> soledad w ->
  exists ca res remote' entries entry pgp,
    _ca_cert_path self = Some ca
    /\ fetcher_get (_fetcher self) (remote w) (_nickserver_uri self)
         [("address", address)] (Some ca) = (Ok res, remote')
    /\ valid_response res
    /\ json res = Ok (JObj entries)
    /\ assoc_get OPENPGP_KEY entries = Some entry
    /\ _wrapper_map self !! OpenPGPKey = Some pgp
    /\ soledad run.2 = (Scheme.put_ascii_key pgp (soledad w) entry).2.
Proof.
  intros run.
  assert (Hrun : run = _fetch_keys_from_server self address w)
    by reflexivity.
  clearbody run. revert Hrun.
  unfold _fetch_keys_from_server, bind at 1. rewrite _get_eq.
  destruct (_ca_cert_path self) as [ca|] eqn:Hca; [|by intros -> []].
  destruct (fetcher_get _ _ _ _ _) as [[res|e] remote'] eqn:Hget;
    [|by intros -> []].
  destruct (raise_for_status res) eqn:Hstatus; [by intros -> []|].
  destruct (headers res !! "content-type") as [ct|] eqn:Hct;
    [|by intros -> []].
  destruct (String.prefix "application/json" ct) eqn:Hprefix;
    [|by intros -> []].
  assert (Hvalid : valid_response res) by (split; eauto).
  unfold bind, lift, wrapper_map_getitem, ret, raise.
  destruct (json res) as [server_keys|e] eqn:Hjson; [|by intros -> []].
  destruct server_keys as [| | | |l|entries]; simpl;
    try (by intros -> []).
  - (* a JSON string *)
    destruct (str_contains OPENPGP_KEY s); [|by intros -> []].
    destruct (_wrapper_map self !! OpenPGPKey); by intros -> [].
  - (* a JSON list *)
    destruct (existsb (is_JStr OPENPGP_KEY) l); [|by intros -> []].
    destruct (_wrapper_map self !! OpenPGPKey); by intros -> [].
  - (* a JSON object *)
    destruct (existsb _ entries); [|by intros -> []].
    destruct (_wrapper_map self !! OpenPGPKey) as [pgp|] eqn:Hpgp;
      [|by intros -> []].
    destruct (assoc_get "openpgp" entries) as [entry|] eqn:Hentry;
      [|by intros -> []].
    unfold scheme_call. simpl.
    destruct (Scheme.put_ascii_key pgp (soledad w) entry) as [r sol']
      eqn:Himport.
    simpl. intros -> _.
    exists ca, res, remote', entries, entry, pgp.
    repeat split; try done; [apply Hvalid|by rewrite Himport].
Qed.

(** X13. What else can go wrong once the request has been answered and
    the answer has passed the status check.  Without a content type the
    fetch raises [KeyError].  With a valid answer, the exception of
    [json()] is raised as it is; and, the OpenPGP wrapper being
    registered, a body that is JSON but not an object is never imported:
    the fetch returns or raises [TypeError], the store being
    unchanged. *)
Theorem fetch_bad_answers self address w ca pgp res remote' :
  _ca_cert_path self = Some ca ->
  _wrapper_map self !! OpenPGPKey = Some pgp ->
  fetcher_get (_fetcher self) (remote w) (_nickserver_uri self)
    [("address", address)] (Some ca) = (Ok res, remote') ->
  raise_for_status res = None ->
  let run := _fetch_keys_from_server self address w in
  (headers res !! "content-type" = None ->
   run = (Err (KeyError "content-type"), sent self address w remote'))
  /\ (valid_response res ->
      (forall e, json res = Err e ->
                 run = (Err e, sent self address w remote'))
      /\ (forall body,
            json res = Ok body ->
            (forall entries, body <> JObj entries) ->
            run.2 = sent self address w remote'
            /\ (run.1 = Ok tt \/ exists msg, run.1 = Err (TypeError msg)))).
Proof.
  intros Hca Hpgp Hget Hstatus run. split.
  - intros Hct. subst run.
    unfold _fetch_keys_from_server, bind at 1.
    rewrite _get_eq, Hca, Hget, Hstatus, Hct. unfold sent. by rewrite Hca.
  - intros Hvalid. subst run.
    rewrite (_fetch_keys_from_server_valid self address w ca res remote')
      by done.
    split.
    + by intros e ->.
    + intros body -> Hobj.
      rewrite Hpgp.
      destruct body as [| | | |l|entries]; simpl.
      * split; [reflexivity|eauto].
      * split; [reflexivity|eauto].
      * split; [reflexivity|eauto].
      * destruct (str_contains OPENPGP_KEY s);
          (split; [reflexivity|eauto]).
      * destruct (existsb (is_JStr OPENPGP_KEY) l);
          (split; [reflexivity|eauto]).
      * by destruct (Hobj entries).
Qed.

(** ** More on the dispatcher *)

(** X14. [encrypt], [decrypt], [sign] and [verify] never use the
    network, whatever key they are given: no request is sent, the remote
    servers are unchanged, and the only thing they may have done is one
    call to the wrapper registered for the key's class. *)
Theorem dispatch_never_uses_network self data key passphrase other w :
  let quiet := fun w' : World =>
    remote w' = remote w
    /\ network_calls (trace w') = network_calls (trace w)
    /\ (w' = w \/ exists call,
                    trace w' = trace w ++ [EvScheme (klass key) call]) in
  quiet (encrypt self data key passphrase other w).2
  /\ quiet (decrypt self data key passphrase other w).2
  /\ quiet (sign self data key w).2
  /\ quiet (verify self data key w).2.
Proof.
  assert (Hcall : forall (A : Type) call
                    (method : Soledad -> Result A * Soledad),
    let w' := (scheme_call (klass key) call method w).2 in
    remote w' = remote w
    /\ network_calls (trace w') = network_calls (trace w)
    /\ (w' = w \/ exists call',
                    trace w' = trace w ++ [EvScheme (klass key) call'])).
  { intros A call method. unfold scheme_call.
    destruct (method (soledad w)) as [r sol']. simpl.
    split; [reflexivity|]. split; [|by eauto].
    rewrite network_calls_app. unfold network_calls, count. simpl. lia. }
  cbv zeta. rewrite encrypt_eq, decrypt_eq, sign_eq, verify_eq.
  destruct (_wrapper_map self !! klass key) as [scheme|];
    [|by repeat split; auto].
  destruct (private key); repeat split; auto; try apply Hcall.
Qed.

(** ** The settings *)

(** X15. The session id, the API URI, the API version and the uid only
    matter to [send_key]: two Key Managers that agree on the address, the
    nickserver URI, the CA certificate path, the wrappers and the fetcher
    look up, list, refresh and generate keys and encrypt, decrypt, sign
    and verify in exactly the same way.  So logging in, or any other use
    of these four setters, changes none of these operations. *)
Theorem lookups_ignore_publishing_settings self self' :
  _address self = _address self' ->
  _nickserver_uri self = _nickserver_uri self' ->
  _ca_cert_path self = _ca_cert_path self' ->
  _wrapper_map self = _wrapper_map self' ->
  _fetcher self = _fetcher self' ->
  (forall address ktype private fetch_remote,
     get_key self address ktype private fetch_remote
     = get_key self' address ktype private fetch_remote)
  /\ (forall private,
        get_all_keys_in_local_db self private
        = get_all_keys_in_local_db self' private)
  /\ refresh_keys self = refresh_keys self'
  /\ (forall ktype, gen_key self ktype = gen_key self' ktype)
  /\ (forall data key passphrase other,
        encrypt self data key passphrase other
        = encrypt self' data key passphrase other
        /\ decrypt self data key passphrase other
           = decrypt self' data key passphrase other
        /\ sign self data key = sign self' data key
        /\ verify self data key = verify self' data key).
Proof.
  destruct self, self'. simpl. intros -> -> -> -> ->.
  repeat split.
Qed.

(** X16. A Key Manager as [__init__] builds it knows one key type,
    [OpenPGPKey], handled by the wrapper it was built with, and the tag
    of [OpenPGPKey] is rebuilt into [OpenPGPKey].  For any other key type
    every operation fails without doing anything: [get_key] and
    [send_key] on their assertion, [gen_key] with [KeyError], and
    [encrypt], [decrypt], [sign] and [verify] with the unknown-key-type
    assertion for a key of that class. *)
Theorem init_knows_openpgp_only
    address nickserver_uri session_id ca_cert_path api_uri api_version uid
    scheme (fetcher : Fetcher Remote) ktype w :
  ktype <> OpenPGPKey ->
  let km := __init__ address nickserver_uri session_id ca_cert_path
              api_uri api_version uid scheme fetcher in
  _wrapper_map km !! OpenPGPKey = Some scheme
  /\ _key_class_from_type km (str_class OpenPGPKey) w = (Ok OpenPGPKey, w)
  /\ (forall addr private fetch_remote,
        get_key km addr ktype private fetch_remote w
        = (Err (AssertionError
                  ("Unkown key type: " ++ str_class ktype ++ ".")%string),
           w))
  /\ gen_key km ktype w = (Err (KeyError (str_class ktype)), w)
  /\ send_key km ktype w
     = (Err (AssertionError
               "For now we only know how to send OpenPGP public keys."), w)
  /\ (forall data key passphrase other,
        klass key = ktype ->
        encrypt km data key passphrase other w
          = (Err (AssertionError "Unknown key type."), w)
        /\ decrypt km data key passphrase other w
          = (Err (AssertionError "Unknown key type."), w)
        /\ sign km data key w
          = (Err (AssertionError "Unknown key type."), w)
        /\ verify km data key w
          = (Err (AssertionError "Unknown key type."), w)).
Proof.
  intros Hne km.
  assert (Hpgp : _wrapper_map km !! OpenPGPKey = Some scheme)
    by apply lookup_singleton_eq.
  assert (Hother : _wrapper_map km !! ktype = None)
    by (by apply lookup_singleton_ne).
  split; [exact Hpgp|]. split.
  { apply _key_class_from_type_registered. by rewrite Hpgp. }
  split.
  { intros. by rewrite get_key_eq, Hother. }
  split.
  { unfold gen_key, bind, wrapper_map_getitem. by rewrite Hother. }
  split.
  { rewrite send_key_eq. by rewrite bool_decide_eq_false_2. }
  intros data key passphrase other <-.
  rewrite encrypt_eq, decrypt_eq, sign_eq, verify_eq, Hother. auto.
Qed.

End Coverage.

(** * The further properties at work *)

(** X1 at work: Alice publishes her key. *)
Lemma send_key_puts_public_key_witness :
  send_key Demo.km OpenPGPKey (Demo.world Demo.own_keys)
  = (Ok tt,
     {| soledad := Demo.own_keys; remote := Demo.nickserver;
        trace := [EvScheme OpenPGPKey (Call_get_key Demo.alice false);
                  EvPut "https://api.leap.se/1/users/uid1.json"
                        [("user[public_key]", "alice@leap.se PUBLIC KEY")]
                        (Some "/etc/ca.crt") (Some "session")] |}).
Proof.
  refine (send_key_puts_public_key Demo.km Demo.OpenPGPScheme
            Demo.alice_pubkey "/etc/ca.crt" "session"
            (Demo.world Demo.own_keys) (Demo.ok_response (JObj []))
            Demo.nickserver eq_refl eq_refl _ _ eq_refl eq_refl);
    vm_compute; reflexivity.
Defined.

(** X2 at work: the provider refuses the key. *)
Lemma send_key_put_failure_propagates_witness :
  (send_key Demo.km_refused OpenPGPKey (Demo.world Demo.own_keys)).1
  = Err (HTTPError "422 Client Error: Unprocessable Entity").
Proof.
  refine (f_equal fst
            (send_key_put_failure_propagates Demo.km_refused
               Demo.OpenPGPScheme Demo.alice_pubkey "/etc/ca.crt" "session"
               (Demo.world Demo.own_keys) _ Demo.nickserver
               (HTTPError "422 Client Error: Unprocessable Entity")
               eq_refl eq_refl _ _ eq_refl _)).
  - vm_compute; reflexivity.
  - vm_compute; reflexivity.
  - right. eexists. split; reflexivity.
Defined.

(** X5 at work: Bob's key was fetched; asking again stays local. *)
Lemma get_key_again_is_local_witness :
  let first := get_key Demo.km Demo.bob OpenPGPKey false true
                 (Demo.world Demo.own_keys) in
  let again := get_key Demo.km Demo.bob OpenPGPKey false true first.2 in
  first.1 = again.1
  /\ network_calls (trace first.2) = 1
  /\ network_calls (trace again.2) = 1.
Proof.
  intros first again.
  assert (Hagain : again
            = (Ok {| klass := OpenPGPKey; address := Demo.bob;
                     key_data := "bob@leap.se PUBLIC KEY";
                     private := false |},
               log (EvScheme OpenPGPKey (Call_get_key Demo.bob false))
                   first.2)).
  { apply (get_key_again_is_local Demo.km Demo.bob OpenPGPKey false true
             true (Demo.world Demo.own_keys)).
    vm_compute. reflexivity. }
  rewrite Hagain. vm_compute. repeat split.
Defined.

(** X6 at work: the store cannot be read, the nickserver is not asked. *)
Lemma get_key_other_exception_propagates_witness :
  get_key Demo.km_locked Demo.bob OpenPGPKey false true
    (Demo.world Demo.own_keys)
  = (Err (SchemeError "database is locked"),
     log (EvScheme OpenPGPKey (Call_get_key Demo.bob false))
         (Demo.world Demo.own_keys)).
Proof.
  apply (get_key_other_exception_propagates Demo.km_locked Demo.bob
           OpenPGPKey Demo.LockedScheme false true
           (Demo.world Demo.own_keys)).
  - vm_compute; reflexivity.
  - reflexivity.
  - discriminate.
Defined.

(** X7 at work: Bob's key, fetched, imported and returned. *)
Lemma get_key_fetches_imports_and_returns_witness :
  (get_key Demo.km Demo.bob OpenPGPKey false true
     (Demo.world Demo.own_keys)).1
  = Ok {| klass := OpenPGPKey; address := Demo.bob;
          key_data := "bob@leap.se PUBLIC KEY"; private := false |}.
Proof.
  refine (f_equal fst
            (get_key_fetches_imports_and_returns Demo.km Demo.bob OpenPGPKey
               Demo.OpenPGPScheme Demo.OpenPGPScheme Demo.bob "/etc/ca.crt"
               (Demo.world Demo.own_keys)
               (Demo.ok_response (JObj Demo.bob_entries)) Demo.nickserver
               Demo.bob_entries (JStr "bob@leap.se PUBLIC KEY")
               (Demo.own_keys
                ++ [Demo.pub_doc Demo.bob "bob@leap.se PUBLIC KEY"])
               {| klass := OpenPGPKey; address := Demo.bob;
                  key_data := "bob@leap.se PUBLIC KEY"; private := false |}
               _ _ _ eq_refl eq_refl _ eq_refl eq_refl _ _)).
  all: try (vm_compute; reflexivity).
  split; [reflexivity|].
  exists "application/json; charset=utf-8". split; vm_compute; reflexivity.
Defined.

(** X11 at work: a stored certificate stops the refresh. *)
Lemma refresh_keys_unknown_type_tag_witness :
  let w := Demo.world (Demo.own_keys ++ [Demo.x509_doc]) in
  refresh_keys Demo.km w
  = (Err (IndexError "pop from empty list"),
     log (EvIndex TAGS_PRIVATE_INDEX KEYMANAGER_KEY_TAG "0") w).
Proof.
  intros w.
  apply (refresh_keys_unknown_type_tag Demo.km w Demo.x509_doc).
  - change (get_from_index (soledad w) TAGS_PRIVATE_INDEX
              KEYMANAGER_KEY_TAG "0")
      with [Demo.pub_doc Demo.alice "alice@leap.se PUBLIC KEY";
            Demo.x509_doc].
    apply list_elem_of_further, list_elem_of_here.
  - intros k [scheme Hk].
    change (_wrapper_map Demo.km)
      with ({[ OpenPGPKey := Demo.OpenPGPScheme ]} : gmap KeyClass Scheme.t)
      in Hk.
    apply lookup_singleton_Some in Hk as [<- _]. discriminate.
Defined.

(** X12 at work: the fetch for Bob changed the store. *)
Lemma fetch_changes_store_only_by_import_witness :
  let w := Demo.world Demo.own_keys in
  exists entries entry,
    fetcher_get (_fetcher Demo.km) (remote w) (_nickserver_uri Demo.km)
      [("address", Demo.bob)] (Some "/etc/ca.crt")
    = (Ok (Demo.ok_response (JObj entries)), Demo.nickserver)
    /\ assoc_get OPENPGP_KEY entries = Some entry.
Proof.
  intros w.
  destruct (fetch_changes_store_only_by_import Demo.km Demo.bob w)
    as (ca & res & remote' & entries & entry & pgp
        & Hca & Hget & Hvalid & Hjson & Hentry & Hpgp & Hsol).
  { vm_compute. discriminate. }
  exists entries, entry. split; [|exact Hentry].
  injection Hca as <-. rewrite Hget in *.
  revert Hget Hjson. vm_compute. intros [= <- <-] [= <-]. reflexivity.
Defined.

(** X13 at work: the nickserver answers with a JSON list that holds the
    string [openpgp]; nothing is imported. *)
Lemma fetch_bad_answers_witness :
  let w := Demo.odd_world Demo.own_keys in
  let run := _fetch_keys_from_server Demo.km Demo.frank w in
  soledad run.2 = Demo.own_keys
  /\ (run.1 = Ok tt \/ exists msg, run.1 = Err (TypeError msg)).
Proof.
  intros w run.
  assert (Hvalid : valid_response
                     (Demo.ok_response (JArr [JStr "openpgp"]))).
  { split; [reflexivity|].
    exists "application/json; charset=utf-8".
    split; vm_compute; reflexivity. }
  assert (Hpgp : _wrapper_map Demo.km !! OpenPGPKey
                 = Some Demo.OpenPGPScheme) by (vm_compute; reflexivity).
  destruct (proj2 (proj2 (fetch_bad_answers Demo.km Demo.frank w
                            "/etc/ca.crt" Demo.OpenPGPScheme
                            (Demo.ok_response (JArr [JStr "openpgp"]))
                            Demo.odd_nickserver
                            eq_refl Hpgp eq_refl eq_refl) Hvalid)
              (JArr [JStr "openpgp"]) eq_refl)
    as [Hworld Hresult].
  { intros entries. discriminate. }
  fold run in Hworld, Hresult. split; [|exact Hresult].
  rewrite Hworld. reflexivity.
Defined.

(** X15 at work: before and after login, looking for Bob's key is the
    same. *)
Lemma lookups_ignore_publishing_settings_witness :
  get_key Demo.km_no_session Demo.bob OpenPGPKey false true
  = get_key Demo.km Demo.bob OpenPGPKey false true
  /\ refresh_keys Demo.km_no_session = refresh_keys Demo.km.
Proof.
  destruct (lookups_ignore_publishing_settings Demo.km_no_session Demo.km
              eq_refl eq_refl eq_refl eq_refl eq_refl)
    as (Hget & _ & Hrefresh & _).
  split; [apply Hget|exact Hrefresh].
Defined.

(** X16 at work: Alice's Key Manager does not know X.509 keys. *)
Lemma init_knows_openpgp_only_witness :
  gen_key Demo.km Demo.X509Key (Demo.world Demo.own_keys)
  = (Err (KeyError "<class 'leap.keymanager.x509.X509Key'>"),
     Demo.world Demo.own_keys)
  /\ _key_class_from_type Demo.km
       "<class 'leap.keymanager.openpgp.OpenPGPKey'>"
       (Demo.world Demo.own_keys)
     = (Ok OpenPGPKey, Demo.world Demo.own_keys).
Proof.
  assert (Hne : Demo.X509Key <> OpenPGPKey) by discriminate.
  destruct (init_knows_openpgp_only Demo.alice "https://nicknym.leap.se:6425"
              (Some "session") (Some "/etc/ca.crt")
              (Some "https://api.leap.se") (Some "1") (Some "uid1")
              Demo.OpenPGPScheme Demo.fetcher Demo.X509Key
              (Demo.world Demo.own_keys) Hne)
    as (_ & Hclass & _ & Hgen & _).
  split; [exact Hgen|exact Hclass].
Defined.
